(** * Financial-AI-Agent: a shallow embedding of [main.py]

    The development follows the classes of the program in the order of the
    source: [Transaction], [BudgetManager], [InvestmentAdvisor],
    [TaxAssistant] and [FinancialAIAgent].

    Modelling conventions.
    - Python numbers ([int] and [float]) are idealised as exact rationals
      [Q]; rounding of binary floating point is not modelled.  The literals
      [0.10], [0.075], ... are the rationals they denote in decimal.
    - A [dict] with string keys is a [gmap string _]; the bracket table,
      whose iteration order fixes the order of the additions, is an
      association list.
    - A method that can raise returns a [res]; a method that mutates [self]
      is a function from the object to an outcome and the object as the
      call leaves it, so that the state left behind by an exception is part
      of the model.
    - An f-string is the list of its literal and formatted pieces.
    - [datetime.now()] and the random market snapshot are inputs. *)

From Stdlib Require Import QArith Lqa.
From stdpp Require Import gmap strings list fin_maps.

(** ** Numbers *)

(** [x > y] on Python numbers. *)
Definition Qgtb (x y : Q) : bool := negb (Qle_bool x y).

(** [x < y] on Python numbers. *)
Definition Qltb (x y : Q) : bool := Qgtb y x.

(** ** Exceptions and outcomes *)

Inductive exn : Type :=
| ValueError (msg : string)
| KeyError (key : string)
| ZeroDivisionError.

Inductive res (A : Type) : Type :=
| Ok (a : A)
| Raise (e : exn).
Arguments Ok {A} a.
Arguments Raise {A} e.

#[global] Instance res_ret : MRet res := @Ok.
#[global] Instance res_bind : MBind res := λ A B f r,
  match r with
  | Ok a => f a
  | Raise e => Raise e
  end.

(** [x / y]: true division raises on a zero divisor, for [int] and [float]
    alike. *)
Definition py_div (x y : Q) : res Q :=
  if Qeq_bool y 0 then Raise ZeroDivisionError else Ok (x / y)%Q.

(** The builtin [sum]: starts from [0] and adds from left to right. *)
Definition py_sum (l : list Q) : Q := foldl Qplus 0%Q l.

(** The builtin [max] of two arguments: the first one unless the second is
    strictly greater. *)
Definition py_max (x y : Q) : Q := if Qgtb y x then y else x.

(** A method of an object of class [S]: the outcome and the object after
    the call. *)
Definition method (S A : Type) : Type := S → res A * S.

Definition m_ret {S A} (a : A) : method S A := λ s, (Ok a, s).
Definition m_raise {S A} (e : exn) : method S A := λ s, (Raise e, s).
Definition m_bind {S A B} (c : method S A) (k : A → method S B) : method S B :=
  λ s, match c s with
       | (Ok a, s') => k a s'
       | (Raise e, s') => (Raise e, s')
       end.
Definition m_get {S} : method S S := λ s, (Ok s, s).
Definition m_put {S} (s' : S) : method S unit := λ _, (Ok tt, s').

Declare Scope method_scope.
Delimit Scope method_scope with method.
Notation "x <<- c ;; k" := (m_bind c (λ x, k))
  (at level 100, c at next level, right associativity) : method_scope.
Notation "c ;;; k" := (m_bind c (λ _, k))
  (at level 100, right associativity) : method_scope.

(** ** Formatted text *)

(** The pieces of an f-string: literal text and replacement fields with
    their format specification. *)
Inductive piece : Type :=
| Lit (s : string)          (* literal text *)
| Fix2 (x : Q)              (* {x:.2f} *)
| Dec (n : Z)               (* {n} *)
| Dec02 (n : Z).            (* {n:02d} *)

Definition text : Type := list piece.

(** ** Transaction *)

Record datetime : Type := mk_datetime {
  year : Z;
  month : Z;
  day : Z;
  hour : Z;
  minute : Z;
  second : Z
}.

Record Transaction : Type := mk_Transaction {
  date : datetime;
  amount : Q;
  category : string;
  description : string;
  transaction_type : string  (* 'income' or 'expense' *)
}.

(** ** BudgetManager *)

Record BudgetManager : Type := mk_BudgetManager {
  categories : gmap string Q;
  transactions : list Transaction;
  monthly_budget : gmap string Q;
  monthly_spending : gmap string Q
}.

(** The keys of [self.categories], in the order [__init__] inserts them. *)
Definition category_names : list string :=
  [ "Housing"; "Transportation"; "Food"; "Utilities"; "Healthcare";
    "Entertainment"; "Savings"; "Income"; "Other"; "mortgage_interest";
    "charitable_contributions"; "medical_expenses"; "child_care";
    "education" ].

(** [BudgetManager.__init__] *)
Definition BudgetManager_init : BudgetManager :=
  {| categories := list_to_map ((λ c, (c, 0%Q)) <$> category_names);
     transactions := [];
     monthly_budget := ∅;
     monthly_spending := ∅ |}.

(** [key in d] *)
Definition py_in {A} (k : string) (d : gmap string A) : bool :=
  match d !! k with
  | Some _ => true
  | None => false
  end.

Definition with_categories (c : gmap string Q) (s : BudgetManager) : BudgetManager :=
  {| categories := c;
     transactions := transactions s;
     monthly_budget := monthly_budget s;
     monthly_spending := monthly_spending s |}.

Definition with_transactions (l : list Transaction) (s : BudgetManager) : BudgetManager :=
  {| categories := categories s;
     transactions := l;
     monthly_budget := monthly_budget s;
     monthly_spending := monthly_spending s |}.

Definition with_monthly_budget (b : gmap string Q) (s : BudgetManager) : BudgetManager :=
  {| categories := categories s;
     transactions := transactions s;
     monthly_budget := b;
     monthly_spending := monthly_spending s |}.

(** [self.categories[key] += amount]: the read raises [KeyError] on a
    missing key. *)
Definition categories_iadd (key : string) (x : Q) : method BudgetManager unit :=
  (self <<- m_get ;;
   match categories self !! key with
   | Some old => m_put (with_categories (<[key := (old + x)%Q]> (categories self)) self)
   | None => m_raise (KeyError key)
   end)%method.

(** [BudgetManager.set_budget] *)
Definition set_budget (category : string) (amount : Q) : method BudgetManager unit :=
  (self <<- m_get ;;
   if py_in category (categories self)
   then m_put (with_monthly_budget (<[category := amount]> (monthly_budget self)) self)
   else m_raise (ValueError ("Invalid category: " +:+ category)))%method.

(** [BudgetManager.get_budget] *)
Definition get_budget (self : BudgetManager) (category : string) : Q :=
  default 0%Q (monthly_budget self !! category).

(** [BudgetManager.add_transaction].  [now] is the value [datetime.now()]
    would return at the call. *)
Definition add_transaction (now : datetime)
    (amount : Q) (category description : string)
    (transaction_type : string) (transaction_date : option datetime)
  : method BudgetManager unit :=
  (self <<- m_get ;;
   if negb (py_in category (categories self))
   then m_raise (ValueError ("Invalid category: " +:+ category))
   else
     let transaction_date := match transaction_date with
                             | None => now
                             | Some d => d
                             end in
     let transaction := {| date := transaction_date;
                           amount := amount;
                           category := category;
                           description := description;
                           transaction_type := transaction_type |} in
     (self <<- m_get ;;
      m_put (with_transactions (transactions self ++ [transaction]) self)) ;;;
     if bool_decide (transaction_type = "expense")
     then categories_iadd category amount
     else categories_iadd "Income" amount)%method.

(** *** Monthly report *)

(** One element of a category's ['transactions'] list. *)
Record ReportLine : Type := mk_ReportLine {
  line_date : text;          (* t.date.strftime('%Y-%m-%d') *)
  line_amount : Q;
  line_description : string
}.

(** The value stored under a category in ['transactions_by_category']. *)
Record CategoryReport : Type := mk_CategoryReport {
  total : Q;
  count : nat;
  budget : Q;
  lines : list ReportLine
}.

Record MonthlyReport : Type := mk_MonthlyReport {
  total_income : Q;
  total_expenses : Q;
  transactions_by_category : gmap string CategoryReport;
  savings_rate : Q
}.

(** [d.strftime(fmt)], for the one format the program uses. *)
Definition strftime (fmt : string) (d : datetime) : text :=
  match fmt with
  | "%Y-%m-%d" => [Dec (year d); Lit "-"; Dec02 (month d); Lit "-"; Dec02 (day d)]
  | _ => [Lit fmt]
  end.

(** The condition of the comprehension that selects the transactions of a
    month: [t.date.year == year and t.date.month == month]. *)
Definition in_period (year' month' : Z) (t : Transaction) : Prop :=
  year (date t) = year' ∧ month (date t) = month'.

#[global] Instance in_period_dec year' month' t : Decision (in_period year' month' t) :=
  decide (year (date t) = year' ∧ month (date t) = month').

(** The comprehension itself. *)
Definition monthly_transactions_of (self : BudgetManager) (year' month' : Z)
  : list Transaction :=
  filter (in_period year' month') (transactions self).

(** The body of the loop over [self.categories] in [get_monthly_report]. *)
Definition report_category (self : BudgetManager)
    (monthly_transactions : list Transaction) (category' : string)
    (by_category : gmap string CategoryReport) : gmap string CategoryReport :=
  let cat_transactions := filter (λ t, category t = category') monthly_transactions in
  match cat_transactions with
  | [] => by_category
  | _ :: _ =>
      <[category' := {| total := py_sum (amount <$> cat_transactions);
                        count := length cat_transactions;
                        budget := get_budget self category';
                        lines := (λ t, {| line_date := strftime "%Y-%m-%d" (date t);
                                          line_amount := amount t;
                                          line_description := description t |})
                                 <$> cat_transactions |}]> by_category
  end.

(** [BudgetManager.get_monthly_report] *)
Definition get_monthly_report (self : BudgetManager) (year' month' : Z)
  : res MonthlyReport :=
  let monthly_transactions := monthly_transactions_of self year' month' in
  let report :=
    {| total_income :=
         py_sum (amount <$> filter (λ t, transaction_type t = "income") monthly_transactions);
       total_expenses :=
         py_sum (amount <$> filter (λ t, transaction_type t = "expense") monthly_transactions);
       transactions_by_category := ∅;
       savings_rate := 0%Q |} in
  let report :=
    {| total_income := total_income report;
       total_expenses := total_expenses report;
       transactions_by_category :=
         map_fold (λ category' _ acc, report_category self monthly_transactions category' acc)
                  (transactions_by_category report) (categories self);
       savings_rate := savings_rate report |} in
  if Qgtb (total_income report) 0
  then
    q ← py_div (total_income report - total_expenses report)%Q (total_income report);
    mret {| total_income := total_income report;
            total_expenses := total_expenses report;
            transactions_by_category := transactions_by_category report;
            savings_rate := (q * 100)%Q |}
  else mret report.

(** *** Budget status *)

Record BudgetStatus : Type := mk_BudgetStatus {
  status_budget : Q;         (* 'budget' *)
  spent : Q;
  remaining : Q;
  percentage_used : Q
}.

(** The body of the loop over [self.categories] in [get_budget_status];
    [spent'] is [self.categories[category]]. *)
Definition status_category (self : BudgetManager) (category' : string) (spent' : Q)
    (status : gmap string BudgetStatus) : res (gmap string BudgetStatus) :=
  let budget' := get_budget self category' in
  if Qgtb budget' 0
  then
    pct ← (if Qgtb budget' 0
           then q ← py_div spent' budget'; mret (q * 100)%Q
           else mret 0%Q);
    mret (<[category' := {| status_budget := budget';
                            spent := spent';
                            remaining := (budget' - spent')%Q;
                            percentage_used := pct |}]> status)
  else mret status.

(** [BudgetManager.get_budget_status] *)
Definition get_budget_status (self : BudgetManager) : res (gmap string BudgetStatus) :=
  map_fold (λ category' spent' acc, status ← acc; status_category self category' spent' status)
           (mret ∅) (categories self).

(** ** InvestmentAdvisor *)

Record MarketConditions : Type := mk_MarketConditions {
  stock_market : string;       (* 'bull', 'bear' or 'neutral' *)
  interest_rates : Q;
  economic_outlook : string
}.

Record InvestmentAdvisor : Type := mk_InvestmentAdvisor {
  risk_tolerance : option string;      (* [None] until a profile is set *)
  investment_goals : option string;
  market_conditions : MarketConditions
}.

(** [InvestmentAdvisor.__init__]; [market] is what
    [simulate_market_conditions] drew. *)
Definition InvestmentAdvisor_init (market : MarketConditions) : InvestmentAdvisor :=
  {| risk_tolerance := None;
     investment_goals := None;
     market_conditions := market |}.

(** [InvestmentAdvisor.set_user_profile] *)
Definition set_user_profile (risk_tolerance' investment_goals' : option string)
    (self : InvestmentAdvisor) : InvestmentAdvisor :=
  {| risk_tolerance := risk_tolerance';
     investment_goals := investment_goals';
     market_conditions := market_conditions self |}.

Definition msg_set_profile : text :=
  [Lit "Please set your risk tolerance and investment goals for personalized advice."].
Definition msg_savings_first : text :=
  [Lit "Focus on increasing your savings rate before making significant investments."].
Definition msg_risk_low : text :=
  [Lit "Consider low-risk investments like high-yield savings accounts or government bonds."].
Definition msg_risk_medium : text :=
  [Lit "A balanced portfolio of stocks and bonds could be suitable for your risk tolerance."].
Definition msg_risk_high : text :=
  [Lit "You might consider a stock-heavy portfolio or exploring alternative investments."].
Definition msg_bull : text :=
  [Lit "The stock market is currently bullish. It might be a good time to invest in equities."].
Definition msg_bear : text :=
  [Lit "The stock market is bearish. Consider defensive stocks or wait for better entry points."].
Definition msg_rates (rate : Q) : text :=
  [Lit "With high interest rates ("; Fix2 rate;
   Lit "%), consider bonds or high-yield savings accounts."].
Definition msg_retirement : text :=
  [Lit "For retirement, consider tax-advantaged accounts like 401(k)s or IRAs."].
Definition msg_short_term : text :=
  [Lit "For short-term goals, focus on liquid and low-risk investments."].

(** [InvestmentAdvisor.provide_investment_advice] *)
Definition provide_investment_advice (self : InvestmentAdvisor)
    (monthly_report : MonthlyReport) : list text :=
  let advice : list text := [] in
  let savings_rate' := savings_rate monthly_report in
  match risk_tolerance self, investment_goals self with
  | Some risk, Some goals =>
      if Qltb savings_rate' 10
      then advice ++ [msg_savings_first]
      else
        let advice :=
          if bool_decide (risk = "low") then advice ++ [msg_risk_low]
          else if bool_decide (risk = "medium") then advice ++ [msg_risk_medium]
          else if bool_decide (risk = "high") then advice ++ [msg_risk_high]
          else advice in
        let advice :=
          if bool_decide (stock_market (market_conditions self) = "bull")
          then advice ++ [msg_bull]
          else if bool_decide (stock_market (market_conditions self) = "bear")
          then advice ++ [msg_bear]
          else advice in
        let advice :=
          if Qgtb (interest_rates (market_conditions self)) 3
          then advice ++ [msg_rates (interest_rates (market_conditions self))]
          else advice in
        let advice :=
          if bool_decide (goals = "retirement") then advice ++ [msg_retirement]
          else if bool_decide (goals = "short_term") then advice ++ [msg_short_term]
          else advice in
        advice
  | _, _ => advice ++ [msg_set_profile]
  end.

(** ** TaxAssistant *)

(** The upper end of a bracket: a number or [float('inf')]. *)
Inductive bound : Type :=
| Finite (x : Q)
| Infinity.

Record TaxAssistant : Type := mk_TaxAssistant {
  tax_brackets : list ((Q * bound) * Q);   (* (lower, upper) -> rate, in insertion order *)
  standard_deduction : Q
}.

(** [TaxAssistant.__init__] *)
Definition TaxAssistant_init : TaxAssistant :=
  {| tax_brackets :=
       [ ((0, Finite 9950), 10 # 100);
         ((9951, Finite 40525), 12 # 100);
         ((40526, Finite 86375), 22 # 100);
         ((86376, Finite 164925), 24 # 100);
         ((164926, Finite 209425), 32 # 100);
         ((209426, Finite 523600), 35 # 100);
         ((523601, Infinity), 37 # 100) ]%Q;
     standard_deduction := 12550%Q |}.

(** [min(x, upper)]: the first argument unless the second is strictly
    smaller; nothing is smaller than it when the second is infinite. *)
Definition py_min (x : Q) (upper : bound) : Q :=
  match upper with
  | Finite u => if Qltb u x then u else x
  | Infinity => x
  end.

(** The body of the loop over the brackets. *)
Definition tax_step (taxable_income : Q) (tax : Q) (bracket : (Q * bound) * Q) : Q :=
  let '((lower, upper), rate) := bracket in
  if Qgtb taxable_income lower
  then (tax + (py_min taxable_income upper - lower) * rate)%Q
  else tax.

(** [TaxAssistant.calculate_tax_liability] *)
Definition calculate_tax_liability (self : TaxAssistant) (income : Q) : Q :=
  let taxable_income := py_max (income - standard_deduction self)%Q 0%Q in
  foldl (tax_step taxable_income) 0%Q (tax_brackets self).

(** [expenses.get(key, 0)] *)
Definition expenses_get (expenses : gmap string Q) (key : string) : Q :=
  default 0%Q (expenses !! key).

Definition msg_liability (income tax_liability : Q) : text :=
  [Lit "Based on your income of $"; Fix2 income;
   Lit ", your estimated tax liability is $"; Fix2 tax_liability; Lit "."].
Definition msg_effective_rate (percent : Q) : text :=
  [Lit "Your effective tax rate is approximately "; Fix2 percent; Lit "%."].
Definition msg_mortgage : text :=
  [Lit "You may be eligible for the mortgage interest deduction."].
Definition msg_charity : text :=
  [Lit "Don't forget to claim your charitable contributions as deductions."].
Definition msg_medical : text :=
  [Lit "You may be eligible to deduct medical expenses exceeding 7.5% of your income."].
Definition msg_child_care : text :=
  [Lit "Look into the Child and Dependent Care Credit."].
Definition msg_education : text :=
  [Lit "You might be eligible for education-related tax credits like the American Opportunity Credit or Lifetime Learning Credit."].
Definition msg_receipts : text :=
  [Lit "Keep all receipts and documentation for your deductions and credits."].
Definition msg_deadline : text :=
  [Lit "The deadline for filing your tax return is April 15th. Mark your calendar!"].

(** [advice.append(msg)] under a condition. *)
Definition append_if (cond : bool) (msg : text) (advice : list text) : list text :=
  if cond then advice ++ [msg] else advice.

(** [TaxAssistant.provide_tax_advice] *)
Definition provide_tax_advice (self : TaxAssistant) (income : Q)
    (expenses : gmap string Q) : res (list text) :=
  let advice : list text := [] in
  let tax_liability := calculate_tax_liability self income in
  let advice := advice ++ [msg_liability income tax_liability] in
  q ← py_div tax_liability income;
  let advice := advice ++ [msg_effective_rate (q * 100)%Q] in
  let advice := append_if (Qgtb (expenses_get expenses "mortgage_interest") 0) msg_mortgage advice in
  let advice := append_if (Qgtb (expenses_get expenses "charitable_contributions") 0) msg_charity advice in
  let advice := append_if (Qgtb (expenses_get expenses "medical_expenses") ((75 # 1000) * income)%Q)
                          msg_medical advice in
  let advice := append_if (Qgtb (expenses_get expenses "child_care") 0) msg_child_care advice in
  let advice := append_if (Qgtb (expenses_get expenses "education") 0) msg_education advice in
  let advice := advice ++ [msg_receipts] in
  let advice := advice ++ [msg_deadline] in
  mret advice.

(** ** FinancialAIAgent *)

Record FinancialAIAgent : Type := mk_FinancialAIAgent {
  budget_manager : BudgetManager;
  investment_advisor : InvestmentAdvisor;
  tax_assistant : TaxAssistant
}.

(** [FinancialAIAgent.__init__], without the creation of the data
    directory. *)
Definition FinancialAIAgent_init (market : MarketConditions) : FinancialAIAgent :=
  {| budget_manager := BudgetManager_init;
     investment_advisor := InvestmentAdvisor_init market;
     tax_assistant := TaxAssistant_init |}.

Record IncomeSummary : Type := mk_IncomeSummary {
  summary_total_income : Q;
  summary_total_expenses : Q;
  net_income : Q;
  summary_savings_rate : Q
}.

Record FinancialReport : Type := mk_FinancialReport {
  period : text;
  income_summary : IncomeSummary;
  spending_by_category : gmap string CategoryReport;
  recommendations : list text
}.

Definition msg_save_more : text :=
  [Lit "Consider increasing your savings rate to at least 20% of income"].
Definition msg_housing : text :=
  [Lit "Housing costs exceed 30% of income - consider ways to reduce housing expenses"].

(** [FinancialAIAgent._generate_recommendations] *)
Definition _generate_recommendations (self : FinancialAIAgent)
    (monthly_report : MonthlyReport) : res (list text) :=
  let recommendations : list text := [] in
  let income := total_income monthly_report in
  let savings_rate' := savings_rate monthly_report in
  let recommendations := append_if (Qltb savings_rate' 20) msg_save_more recommendations in
  let recommendations :=
    match transactions_by_category monthly_report !! "Housing" with
    | Some housing =>
        append_if (Qgtb (total housing) (income * (3 # 10))%Q) msg_housing recommendations
    | None => recommendations
    end in
  let investment_advice :=
    provide_investment_advice (investment_advisor self) monthly_report in
  let recommendations := recommendations ++ investment_advice in
  let expense_dict := total <$> transactions_by_category monthly_report in
  tax_advice ← provide_tax_advice (tax_assistant self) income expense_dict;
  let recommendations := recommendations ++ tax_advice in
  mret recommendations.

(** [FinancialAIAgent.generate_financial_report] *)
Definition generate_financial_report (self : FinancialAIAgent) (year' month' : Z)
  : res FinancialReport :=
  monthly_report ← get_monthly_report (budget_manager self) year' month';
  recommendations' ← _generate_recommendations self monthly_report;
  mret {| period := [Dec year'; Lit "-"; Dec02 month'];
          income_summary :=
            {| summary_total_income := total_income monthly_report;
               summary_total_expenses := total_expenses monthly_report;
               net_income := (total_income monthly_report - total_expenses monthly_report)%Q;
               summary_savings_rate := savings_rate monthly_report |};
          spending_by_category := transactions_by_category monthly_report;
          recommendations := recommendations' |}.

(** * Specification-level notions *)

(** ** The category registry *)

(** The keys of [self.categories] are the fixed names: established by
    [__init__] and kept by every method. *)
Definition well_formed (s : BudgetManager) : Prop :=
  ∀ c, is_Some (categories s !! c) ↔ c ∈ category_names.

(** The totals as the specification words them: the sum of the amounts of
    the transactions of the ledger that have the given type and fall in the
    month. *)
Definition period_total (ty : string) (year' month' : Z) (ledger : list Transaction) : Q :=
  py_sum (amount <$> filter (λ t, transaction_type t = ty ∧ in_period year' month' t) ledger).

(** The entry of a category whose running total is [spent']: present when
    the target is positive. *)
Definition status_entry (self : BudgetManager) (c : string) (spent' : Q)
  : option BudgetStatus :=
  let budget' := get_budget self c in
  if Qgtb budget' 0
  then Some {| status_budget := budget';
               spent := spent';
               remaining := (budget' - spent')%Q;
               percentage_used := (spent' / budget' * 100)%Q |}
  else None.

(** ** Tax brackets *)

Definition lower_of (b : (Q * bound) * Q) : Q := b.1.1.
Definition upper_of (b : (Q * bound) * Q) : bound := b.1.2.
Definition rate_of (b : (Q * bound) * Q) : Q := b.2.

(** The pairs of neighbouring entries of a table. *)
Fixpoint neighbours {A} (l : list A) : list (A * A) :=
  match l with
  | [] => []
  | x :: tl => match tl with
               | [] => []
               | y :: _ => (x, y) :: neighbours tl
               end
  end.

(** Contiguity as the specification words it: a bracket starts exactly
    where the one before it ends. *)
Definition contiguous (table : list ((Q * bound) * Q)) : Prop :=
  ∀ b1 b2, (b1, b2) ∈ neighbours table →
           ∃ u, upper_of b1 = Finite u ∧ (lower_of b2 == u)%Q.

(** Contiguity of whole-dollar ranges: a bracket starts one dollar above
    the end of the one before it. *)
Definition adjacent (table : list ((Q * bound) * Q)) : Prop :=
  ∀ b1 b2, (b1, b2) ∈ neighbours table →
           ∃ u, upper_of b1 = Finite u ∧ (lower_of b2 == u + 1)%Q.

Definition last_unbounded (table : list ((Q * bound) * Q)) : Prop :=
  upper_of <$> last table = Some Infinity.

(** The amount [x] lies in the range of bracket [b], ends included. *)
Definition covers (b : (Q * bound) * Q) (x : Q) : Prop :=
  (lower_of b <= x)%Q
  ∧ match upper_of b with
    | Finite u => (x <= u)%Q
    | Infinity => True
    end.

(** The liability as the specification words it: with
    [taxable = max(income - standard_deduction, 0)], the sum over the
    brackets with [taxable > lower] of [(min(taxable, upper) - lower) * rate]. *)
Definition bracket_share (taxable : Q) (b : (Q * bound) * Q) : Q :=
  if Qgtb taxable (lower_of b)
  then ((py_min taxable (upper_of b) - lower_of b) * rate_of b)%Q
  else 0%Q.

Definition tax_liability_spec (self : TaxAssistant) (income : Q) : Q :=
  let taxable := py_max (income - standard_deduction self)%Q 0%Q in
  foldr Qplus 0%Q (bracket_share taxable <$> tax_brackets self).

(** ** The segments of the investment advice *)

Definition risk_advice (risk : string) : list text :=
  if decide (risk = "low") then [msg_risk_low]
  else if decide (risk = "medium") then [msg_risk_medium]
  else if decide (risk = "high") then [msg_risk_high]
  else [].

Definition market_advice (stock : string) : list text :=
  if decide (stock = "bull") then [msg_bull]
  else if decide (stock = "bear") then [msg_bear]
  else [].

Definition rate_advice (rate : Q) : list text :=
  if Qgtb rate 3 then [msg_rates rate] else [].

Definition goal_advice (goals : string) : list text :=
  if decide (goals = "retirement") then [msg_retirement]
  else if decide (goals = "short_term") then [msg_short_term]
  else [].

(** The values the specification gives the risk tolerance: once set, it is
    one of ['low'], ['medium'] and ['high']. *)
Definition risk_in_domain (self : InvestmentAdvisor) : Prop :=
  ∀ risk, risk_tolerance self = Some risk → risk ∈ ["low"; "medium"; "high"].

(** ** Sample data *)

Definition noon : datetime := mk_datetime 2024 5 17 12 0 0.

Definition june : datetime := mk_datetime 2024 6 2 9 30 0.

(** The calls of [create_sample_financial_agent] on the budget manager. *)
Definition sample_calls : method BudgetManager unit :=
  (set_budget "Housing" 1600 ;;;
   set_budget "Food" 500 ;;;
   set_budget "Transportation" 300 ;;;
   add_transaction noon 5000 "Income" "Monthly Salary" "income" None ;;;
   add_transaction noon 1500 "Housing" "Rent" "expense" None ;;;
   add_transaction noon 400 "Food" "Groceries" "expense" None ;;;
   add_transaction noon 200 "Transportation" "Gas" "expense" None ;;;
   add_transaction noon 100 "charitable_contributions" "Donation" "expense" None ;;;
   add_transaction noon 300 "medical_expenses" "Doctor visit" "expense" None)%method.

Definition sample_manager : BudgetManager := (sample_calls BudgetManager_init).2.

(** A manager whose target for ['Food'] is negative. *)
Definition overdrawn_manager : BudgetManager :=
  (set_budget "Food" (-5) BudgetManager_init).2.

Definition lively_market : MarketConditions :=
  {| stock_market := "bull"; interest_rates := 4; economic_outlook := "positive" |}.

(** A report with a savings rate of fifty percent. *)
Definition thrifty_report : MonthlyReport :=
  {| total_income := 5000; total_expenses := 2500;
     transactions_by_category := ∅; savings_rate := 50 |}.

(** ** Sequences of calls *)

(** The mutating calls a client can make on a budget manager. *)
Inductive call : Type :=
| SetBudget (category' : string) (amount' : Q)
| AddTransaction (now : datetime) (amount' : Q)
                 (category' description' transaction_type' : string)
                 (transaction_date : option datetime).

Definition run_call (c : call) : method BudgetManager unit :=
  match c with
  | SetBudget category' amount' => set_budget category' amount'
  | AddTransaction now amount' category' description' transaction_type' transaction_date =>
      add_transaction now amount' category' description' transaction_type' transaction_date
  end.

(** The manager after the calls were made in order, the client going on
    after a call that raised. *)
Definition after_calls (calls : list call) (s : BudgetManager) : BudgetManager :=
  foldl (λ s c, (run_call c s).2) s calls.

(** The transaction [t] is posted to the running total of category [c]:
    an expense to its own category, anything else to ['Income']. *)
Definition posts_to (c : string) (t : Transaction) : Prop :=
  (transaction_type t = "expense" ∧ category t = c)
  ∨ (transaction_type t ≠ "expense" ∧ c = "Income").

#[global] Instance posts_to_dec c t : Decision (posts_to c t) :=
  decide ((transaction_type t = "expense" ∧ category t = c)
          ∨ (transaction_type t ≠ "expense" ∧ c = "Income")).

(** The sum of the amounts of the ledger posted to category [c]. *)
Definition posted_total (c : string) (ledger : list Transaction) : Q :=
  py_sum (amount <$> filter (posts_to c) ledger).

(** The running totals are the posted sums of the ledger: kept by every
    call. *)
Definition totals_match (s : BudgetManager) : Prop :=
  ∀ c, c ∈ category_names → categories s !! c = Some (posted_total c (transactions s)).

(** The line of the monthly report for a transaction. *)
Definition report_line (t : Transaction) : ReportLine :=
  {| line_date := strftime "%Y-%m-%d" (date t);
     line_amount := amount t;
     line_description := description t |}.

(** A bracket table the liability is computed on sensibly: no negative
    bound or rate, no bracket that ends before it starts. *)
Definition sane_bracket (b : (Q * bound) * Q) : Prop :=
  (0 <= lower_of b)%Q
  ∧ (0 <= rate_of b)%Q
  ∧ match upper_of b with
    | Finite u => (lower_of b <= u)%Q
    | Infinity => True
    end.

(** The deduction hints of the tax advice, in the order of the source. *)
Definition deduction_hints : list text :=
  [msg_mortgage; msg_charity; msg_medical; msg_child_care; msg_education].

(** ** Tactics *)

(** Membership in a list given by its elements. *)
Ltac in_list :=
  first [apply list_elem_of_here | apply list_elem_of_further; in_list].

(** Case analysis on a member [H : b ∈ table] of a list given by its
    elements. *)
Ltac each_bracket H :=
  repeat (apply elem_of_cons in H as [->|H]); try (by apply elem_of_nil in H).

(** * Properties *)

(** ** Numbers *)

Lemma Qgtb_true (x y : Q) : Qgtb x y = true ↔ (y < x)%Q.
Proof.
  unfold Qgtb. rewrite negb_true_iff, <- not_true_iff_false, Qle_bool_iff.
  split; [apply Qnot_le_lt | apply Qlt_not_le].
Qed.

Lemma Qgtb_false (x y : Q) : Qgtb x y = false ↔ (x <= y)%Q.
Proof. unfold Qgtb. by rewrite negb_false_iff, Qle_bool_iff. Qed.

Lemma py_div_ok (x y : Q) : ¬ (y == 0)%Q → py_div x y = Ok (x / y)%Q.
Proof.
  intros Hy. unfold py_div.
  destruct (Qeq_bool y 0) eqn:E; [|done].
  by apply Qeq_bool_iff in E.
Qed.

Lemma py_div_zero (x y : Q) : (y == 0)%Q → py_div x y = Raise ZeroDivisionError.
Proof. intros Hy. unfold py_div. apply Qeq_bool_iff in Hy. by rewrite Hy. Qed.

(** ** The category registry *)

Lemma init_well_formed : well_formed BudgetManager_init.
Proof.
  intros c. unfold BudgetManager_init. cbn [categories].
  rewrite <- elem_of_dom, dom_list_to_map_L, elem_of_list_to_set.
  by rewrite <- list_fmap_compose, list_fmap_id.
Qed.

Lemma py_in_true {A} (k : string) (d : gmap string A) :
  py_in k d = true ↔ is_Some (d !! k).
Proof.
  unfold py_in. by destruct (d !! k); split.
Qed.

Lemma py_in_false {A} (k : string) (d : gmap string A) :
  py_in k d = false ↔ d !! k = None.
Proof. unfold py_in. by destruct (d !! k). Qed.

(** The three ways a call of [add_transaction] can go. *)

Lemma add_transaction_unknown now a c desc ty d s :
  categories s !! c = None →
  add_transaction now a c desc ty d s
  = (Raise (ValueError ("Invalid category: " +:+ c)), s).
Proof.
  intros Hc. unfold add_transaction, m_bind, m_get, m_raise; simpl.
  apply py_in_false in Hc. by rewrite Hc.
Qed.

Lemma add_transaction_expense now a c desc d s old :
  categories s !! c = Some old →
  add_transaction now a c desc "expense" d s
  = (Ok tt,
     {| categories := <[c := (old + a)%Q]> (categories s);
        transactions := transactions s ++
          [ {| date := default now d; amount := a; category := c;
               description := desc; transaction_type := "expense" |} ];
        monthly_budget := monthly_budget s;
        monthly_spending := monthly_spending s |}).
Proof.
  intros Hc. unfold add_transaction, categories_iadd, m_bind, m_get, m_put, m_raise; simpl.
  unfold py_in. rewrite Hc; simpl. rewrite Hc. by destruct d.
Qed.

Lemma add_transaction_not_expense now a c desc ty d s inc :
  is_Some (categories s !! c) →
  categories s !! "Income" = Some inc →
  ty ≠ "expense" →
  add_transaction now a c desc ty d s
  = (Ok tt,
     {| categories := <["Income" := (inc + a)%Q]> (categories s);
        transactions := transactions s ++
          [ {| date := default now d; amount := a; category := c;
               description := desc; transaction_type := ty |} ];
        monthly_budget := monthly_budget s;
        monthly_spending := monthly_spending s |}).
Proof.
  intros Hc Hi Hty.
  unfold add_transaction, categories_iadd, m_bind, m_get, m_put, m_raise; simpl.
  apply py_in_true in Hc. rewrite Hc; simpl.
  rewrite bool_decide_eq_false_2 by done.
  unfold with_transactions at 1; cbn [categories]. rewrite Hi. by destruct d.
Qed.

Lemma income_registered : "Income" ∈ category_names.
Proof. unfold category_names. set_solver. Qed.

Lemma add_transaction_well_formed now a c desc ty d s :
  well_formed s → well_formed (add_transaction now a c desc ty d s).2.
Proof.
  intros Hwf.
  destruct (categories s !! c) as [old|] eqn:Hc.
  - destruct (decide (ty = "expense")) as [->|Hty].
    + rewrite (add_transaction_expense _ _ _ _ _ _ old) by done. simpl.
      intros c'. simpl. rewrite lookup_insert. case_decide; subst.
      * split; [intros _ | by eauto]. apply Hwf. by rewrite Hc.
      * apply Hwf.
    + destruct (proj2 (Hwf "Income") income_registered) as [inc Hinc].
      rewrite (add_transaction_not_expense _ _ _ _ _ _ _ inc) by (by rewrite ?Hc).
      intros c'. simpl. rewrite lookup_insert. case_decide; subst.
      * split; [intros _ | by eauto]. apply income_registered.
      * apply Hwf.
  - by rewrite add_transaction_unknown.
Qed.

Lemma set_budget_well_formed c a s :
  well_formed s → well_formed (set_budget c a s).2.
Proof.
  intros Hwf. unfold set_budget, m_bind, m_get, m_put, m_raise; simpl.
  by destruct (py_in c (categories s)).
Qed.

(** ** Recording transactions *)

Section Recording.
Variable now : datetime.
Variable s : BudgetManager.
Hypothesis Hwf : well_formed s.


(** Claim C4.  A category outside the registry makes [add_transaction] raise
    [ValueError] ("Invalid category"), whatever the amount, description,
    type and date, and the manager after the call is the manager before
    it: the ledger has no new entry and no running total has moved. *)
Theorem add_transaction_invalid_category_atomic
    (a : Q) (c desc ty : string) (d : option datetime) :
  c ∉ category_names →
  add_transaction now a c desc ty d s
  = (Raise (ValueError ("Invalid category: " +:+ c)), s).
Proof using Hwf.
  intros Hc. apply add_transaction_unknown.
  destruct (categories s !! c) eqn:E; [|done].
  exfalso. apply Hc, Hwf. by rewrite E.
Qed.

(** Claim C10.  For a registered category [c] and a type that is not the
    string ['expense'] (['income'], but also ['Expense'], ['refund'],
    ...), [add_transaction] succeeds, appends the transaction with the
    type as given, and adds the amount to the running total of
    ['Income'], not to that of [c]. *)
Theorem add_transaction_other_type_credits_income
    (a : Q) (c desc ty : string) (d : option datetime) :
  c ∈ category_names →
  ty ≠ "expense" →
  ∃ s' inc,
    add_transaction now a c desc ty d s = (Ok tt, s')
    ∧ transactions s' = transactions s ++
        [ {| date := default now d; amount := a; category := c;
             description := desc; transaction_type := ty |} ]
    ∧ categories s !! "Income" = Some inc
    ∧ categories s' = <["Income" := (inc + a)%Q]> (categories s)
    ∧ (c ≠ "Income" → categories s' !! c = categories s !! c).
Proof using Hwf.
  intros Hc Hty.
  destruct (proj2 (Hwf "Income") income_registered) as [inc Hinc].
  eexists _, inc.
  split; [apply add_transaction_not_expense; [by apply Hwf|done..]|].
  cbn [categories transactions]. repeat split; [done|].
  intros Hne. by apply lookup_insert_ne.
Qed.
End Recording.


(** ['Crypto'] is no category: the call raises and the fresh manager stays
    as it was. *)
Lemma add_transaction_invalid_category_atomic_witness :
  add_transaction noon 40 "Crypto" "Coins" "expense" None BudgetManager_init
  = (Raise (ValueError "Invalid category: Crypto"), BudgetManager_init).
Proof.
  apply (add_transaction_invalid_category_atomic noon BudgetManager_init init_well_formed
           40 "Crypto" "Coins" "expense" None).
  apply (bool_decide_unpack _). by vm_compute.
Defined.

(** A ['refund'] against ['Food'] on a fresh manager goes to ['Income']. *)
Lemma add_transaction_other_type_credits_income_witness :
  ∃ s' inc,
    add_transaction noon 40 "Food" "Store credit" "refund" None BudgetManager_init = (Ok tt, s')
    ∧ transactions s' = transactions BudgetManager_init ++
        [ {| date := default noon None; amount := 40; category := "Food";
             description := "Store credit"; transaction_type := "refund" |} ]
    ∧ categories BudgetManager_init !! "Income" = Some inc
    ∧ categories s' = <["Income" := (inc + 40)%Q]> (categories BudgetManager_init)
    ∧ ("Food" ≠ "Income" → categories s' !! "Food" = categories BudgetManager_init !! "Food").
Proof.
  apply (add_transaction_other_type_credits_income noon BudgetManager_init init_well_formed
           40 "Food" "Store credit" "refund" None).
  - unfold category_names. in_list.
  - done.
Defined.

(** ** The monthly report *)

(** What the loop over the categories leaves under a key: the entry the
    body builds for it, when the key is a category. *)
Lemma by_category_lookup self monthly (cats : gmap string Q) (c : string) :
  map_fold (λ c' _ acc, report_category self monthly c' acc) ∅ cats !! c
  = cats !! c ≫= λ _, report_category self monthly c ∅ !! c.
Proof.
  revert c.
  apply (map_fold_weak_ind
           (λ r (m : gmap string Q),
              ∀ c, r !! c = m !! c ≫= λ _, report_category self monthly c ∅ !! c)).
  - intros c. by rewrite !lookup_empty.
  - intros i x m r Hi IH c.
    destruct (decide (c = i)) as [->|Hne].
    + rewrite lookup_insert_eq; simpl.
      unfold report_category.
      destruct (filter _ monthly) eqn:E.
      * by rewrite IH, Hi, lookup_empty.
      * by rewrite !lookup_insert_eq.
    + rewrite lookup_insert_ne by done. rewrite <- IH.
      unfold report_category.
      destruct (filter _ monthly); [done|].
      by rewrite lookup_insert_ne.
Qed.

Lemma report_category_budget s1 s2 monthly c acc :
  monthly_budget s1 = monthly_budget s2 →
  report_category s1 monthly c acc = report_category s2 monthly c acc.
Proof. intros Hb. unfold report_category, get_budget. by rewrite Hb. Qed.

(** The report reads the object through three things only: the
    transactions of the month, the budget targets and the category keys. *)
Lemma get_monthly_report_ext s1 s2 y m :
  monthly_transactions_of s1 y m = monthly_transactions_of s2 y m →
  monthly_budget s1 = monthly_budget s2 →
  (∀ c, is_Some (categories s1 !! c) ↔ is_Some (categories s2 !! c)) →
  get_monthly_report s1 y m = get_monthly_report s2 y m.
Proof.
  intros Ht Hb Hk. unfold get_monthly_report. cbn zeta. rewrite Ht.
  cbn [total_income total_expenses transactions_by_category savings_rate].
  assert (map_fold (λ c' (_ : Q) acc,
                      report_category s1 (monthly_transactions_of s2 y m) c' acc)
                   ∅ (categories s1)
          = map_fold (λ c' (_ : Q) acc,
                        report_category s2 (monthly_transactions_of s2 y m) c' acc)
                     ∅ (categories s2)) as ->; [|done].
  apply map_eq; intros c. rewrite !by_category_lookup.
  rewrite (report_category_budget s1 s2) by done.
  specialize (Hk c).
  destruct (categories s1 !! c), (categories s2 !! c); try done.
  - destruct Hk as [Hk _]. by destruct Hk.
  - destruct Hk as [_ Hk]. by destruct Hk.
Qed.

(** [get_monthly_report] never raises; the fields of what it returns. *)
Lemma get_monthly_report_ok s y m :
  ∃ r, get_monthly_report s y m = Ok r
    ∧ total_income r
      = py_sum (amount <$> filter (λ t, transaction_type t = "income")
                                  (monthly_transactions_of s y m))
    ∧ total_expenses r
      = py_sum (amount <$> filter (λ t, transaction_type t = "expense")
                                  (monthly_transactions_of s y m))
    ∧ ((0 < total_income r)%Q →
       savings_rate r
       = ((total_income r - total_expenses r) / total_income r * 100)%Q)
    ∧ ((total_income r <= 0)%Q → savings_rate r = 0%Q).
Proof.
  unfold get_monthly_report. cbn zeta.
  cbn [total_income total_expenses transactions_by_category savings_rate].
  set (ti := py_sum (amount <$> filter (λ t, transaction_type t = "income") _)).
  set (te := py_sum (amount <$> filter (λ t, transaction_type t = "expense") _)).
  destruct (Qgtb ti 0) eqn:E.
  - apply Qgtb_true in E.
    rewrite py_div_ok by (intros H0; rewrite H0 in E; by apply Qlt_irrefl in E).
    eexists. split; [done|]. cbn [total_income total_expenses savings_rate].
    split; [done|]. split; [done|]. split; [done|].
    intros Hle. by apply Qle_not_lt in Hle.
  - apply Qgtb_false in E.
    eexists. split; [done|]. cbn [total_income total_expenses savings_rate].
    split; [done|]. split; [done|]. split; [|done].
    intros Hlt. by apply Qle_not_lt in E.
Qed.

(** What a call of [add_transaction] can touch, however it ends. *)
Lemma add_transaction_frame now a c desc ty d s :
  let s' := (add_transaction now a c desc ty d s).2 in
  monthly_budget s' = monthly_budget s
  ∧ (∀ k, is_Some (categories s' !! k) ↔ is_Some (categories s !! k))
  ∧ (transactions s' = transactions s
     ∨ transactions s' = transactions s ++
         [ {| date := default now d; amount := a; category := c;
              description := desc; transaction_type := ty |} ]).
Proof.
  assert (Hins : ∀ (k0 : string) (v v0 : Q) (cats : gmap string Q),
             cats !! k0 = Some v0 →
             ∀ k, is_Some (<[k0 := v]> cats !! k) ↔ is_Some (cats !! k)).
  { intros k0 v v0 cats H0 k. rewrite lookup_insert. case_decide; subst; [|done].
    rewrite H0. split; by eauto. }
  unfold add_transaction, categories_iadd, m_bind, m_get, m_put, m_raise; simpl.
  destruct (py_in c (categories s)); simpl; [|by auto].
  assert (default now d = match d with Some d0 => d0 | None => now end) as <-
    by by destruct d.
  unfold with_transactions, with_categories.
  case_bool_decide; cbn [categories].
  - destruct (categories s !! c) eqn:E; simpl; eauto.
  - destruct (categories s !! "Income") eqn:E; simpl; eauto.
Qed.

Lemma monthly_filter_period_total ty s y m :
  py_sum (amount <$> filter (λ t, transaction_type t = ty) (monthly_transactions_of s y m))
  = period_total ty y m (transactions s).
Proof. unfold monthly_transactions_of, period_total. by rewrite list_filter_filter. Qed.


(** Claim C6.  For every manager, year [y] and month [m]: the report is the
    same for any ledger with the same transactions dated in [y]/[m], so
    transactions outside the month do not show in it; recording a
    transaction dated outside the month leaves the report as it was; and
    the report's total income and total expenses are the sums of the
    amounts of the income-typed and of the expense-typed transactions of
    the ledger that are dated in the month. *)
Theorem monthly_report_window (s : BudgetManager) (y m : Z) :
  (∀ ledger,
      filter (in_period y m) ledger = filter (in_period y m) (transactions s) →
      get_monthly_report (with_transactions ledger s) y m = get_monthly_report s y m)
  ∧ (∀ now a c desc ty d,
      ¬ (year (default now d) = y ∧ month (default now d) = m) →
      get_monthly_report (add_transaction now a c desc ty d s).2 y m
      = get_monthly_report s y m)
  ∧ (∃ r, get_monthly_report s y m = Ok r
      ∧ total_income r = period_total "income" y m (transactions s)
      ∧ total_expenses r = period_total "expense" y m (transactions s)).
Proof.
  split; [|split].
  - intros ledger Hl. by apply get_monthly_report_ext.
  - intros now a c desc ty d Hout.
    destruct (add_transaction_frame now a c desc ty d s) as (Hb & Hk & Ht).
    apply get_monthly_report_ext; [|done..].
    unfold monthly_transactions_of.
    destruct Ht as [->| ->]; [done|].
    rewrite filter_app, filter_cons_False, filter_nil by done.
    apply app_nil_r.
  - destruct (get_monthly_report_ok s y m) as (r & Hr & Hi & He & _).
    exists r. by rewrite Hi, He, !monthly_filter_period_total.
Qed.


(** A dinner in June leaves the report of May as it was. *)
Lemma monthly_report_window_witness :
  get_monthly_report
    (add_transaction noon 75 "Food" "Dinner" "expense" (Some june) sample_manager).2
    2024 5
  = get_monthly_report sample_manager 2024 5.
Proof.
  destruct (monthly_report_window sample_manager 2024 5) as (_ & H & _).
  apply H. cbn. intros [_ Hm]. discriminate Hm.
Defined.

(** ** Budget status *)

(** The loop body never raises: the division is reached with a positive
    divisor only. *)
Lemma status_category_ok self c spent' status :
  status_category self c spent' status
  = Ok (match status_entry self c spent' with
        | Some e => <[c := e]> status
        | None => status
        end).
Proof.
  unfold status_category, status_entry.
  destruct (Qgtb (get_budget self c) 0) eqn:E; [|done].
  apply Qgtb_true in E.
  rewrite py_div_ok; [done|].
  intros H0. rewrite H0 in E. by apply Qlt_irrefl in E.
Qed.

Lemma get_budget_status_lookup self :
  ∃ st, get_budget_status self = Ok st
    ∧ ∀ c, st !! c = categories self !! c ≫= status_entry self c.
Proof.
  unfold get_budget_status.
  apply (map_fold_weak_ind
           (λ (r : res (gmap string BudgetStatus)) (m : gmap string Q),
              ∃ st, r = Ok st ∧ ∀ c, st !! c = m !! c ≫= status_entry self c)).
  - exists ∅. split; [done|]. intros c. by rewrite !lookup_empty.
  - intros i x m r Hi (st & -> & IH).
    cbn [mbind res_bind]. rewrite status_category_ok.
    eexists. split; [done|]. intros c.
    destruct (decide (c = i)) as [->|Hne].
    + rewrite lookup_insert_eq; simpl.
      destruct (status_entry self i x); [by rewrite lookup_insert_eq|].
      by rewrite IH, Hi.
    + rewrite lookup_insert_ne by done. rewrite <- IH.
      destruct (status_entry self i x); [|done].
      by rewrite lookup_insert_ne.
Qed.

(** Claim C7, as amended.  For every manager, [get_budget_status] returns a
    dictionary (it does not raise) that has, for every category whose
    target is positive, the entry with
    [budget], [spent], [remaining = budget - spent] and
    [percentage_used = spent / budget * 100], and that has no entry for a
    category whose target is zero, unset or negative, nor for a name that
    is not a category. *)
Theorem budget_status_entries (self : BudgetManager) :
  ∃ st, get_budget_status self = Ok st
    ∧ ∀ c,
        (∀ spent', categories self !! c = Some spent' →
                   (0 < get_budget self c)%Q →
                   st !! c = Some {| status_budget := get_budget self c;
                                     spent := spent';
                                     remaining := (get_budget self c - spent')%Q;
                                     percentage_used :=
                                       (spent' / get_budget self c * 100)%Q |})
        ∧ ((get_budget self c <= 0)%Q → st !! c = None)
        ∧ (categories self !! c = None → st !! c = None).
Proof.
  destruct (get_budget_status_lookup self) as (st & Hst & Hl).
  exists st. split; [done|]. intros c. rewrite Hl. split; [|split].
  - intros spent' -> Hpos; simpl. unfold status_entry.
    apply Qgtb_true in Hpos. by rewrite Hpos.
  - intros Hle. apply Qgtb_false in Hle.
    destruct (categories self !! c); [|done]; simpl.
    unfold status_entry. by rewrite Hle.
  - by intros ->.
Qed.

(** Claim C7, as stated, fails: a category with a negative target has a
    nonzero target and no entry. *)
Lemma budget_status_negative_target_omitted :
  "Food" ∈ category_names
  ∧ ¬ (get_budget overdrawn_manager "Food" == 0)%Q
  ∧ ∃ st, get_budget_status overdrawn_manager = Ok st ∧ st !! "Food" = None.
Proof.
  split; [in_list|]. split; [by vm_compute|].
  destruct (get_budget_status_lookup overdrawn_manager) as (st & Hst & Hl).
  exists st. split; [done|]. rewrite Hl. by vm_compute.
Qed.

(** The sample manager: ['Housing'] has a target and an entry,
    ['Utilities'] has neither. *)
Lemma budget_status_entries_witness :
  get_budget sample_manager "Housing" = 1600%Q
  ∧ ∃ st, get_budget_status sample_manager = Ok st
      ∧ st !! "Housing"
        = Some {| status_budget := get_budget sample_manager "Housing";
                  spent := 1500;
                  remaining := (get_budget sample_manager "Housing" - 1500)%Q;
                  percentage_used :=
                    (1500 / get_budget sample_manager "Housing" * 100)%Q |}
      ∧ st !! "Utilities" = None.
Proof.
  split; [by vm_compute|].
  destruct (budget_status_entries sample_manager) as (st & Hst & H).
  exists st. split; [done|]. split.
  - destruct (H "Housing") as (Hpos & _). apply Hpos; by vm_compute.
  - destruct (H "Utilities") as (_ & Hle & _). apply Hle. by vm_compute.
Defined.

(** ** Tax liability *)

Lemma tax_step_share (taxable tax : Q) (b : (Q * bound) * Q) :
  (tax_step taxable tax b == tax + bracket_share taxable b)%Q.
Proof.
  destruct b as [[lower upper] rate].
  unfold tax_step, bracket_share, lower_of, upper_of, rate_of; cbn [fst snd].
  destruct (Qgtb taxable lower); [reflexivity | ring].
Qed.

(** The loop adds the shares of the brackets to what it starts from. *)
Lemma foldl_tax_step (taxable : Q) (table : list ((Q * bound) * Q)) (tax : Q) :
  (foldl (tax_step taxable) tax table
   == tax + foldr Qplus 0 (bracket_share taxable <$> table))%Q.
Proof.
  revert tax. induction table as [|b table IH]; intros tax.
  - cbn. ring.
  - rewrite fmap_cons. cbn [foldl foldr]. rewrite IH, tax_step_share. ring.
Qed.

Lemma calculate_tax_liability_spec (self : TaxAssistant) (income : Q) :
  (calculate_tax_liability self income == tax_liability_spec self income)%Q.
Proof.
  unfold calculate_tax_liability, tax_liability_spec; cbn zeta.
  rewrite foldl_tax_step. ring.
Qed.

(** Claim C2, as amended.  [calculate_tax_liability] is the sum over the
    brackets with [taxable > lower] of
    [(min(taxable, upper) - lower) * rate], where
    [taxable = max(income - standard_deduction, 0)]; it is [0] at income
    [0], and [0] as well at income [9950], which the standard deduction
    of [12550] reduces to a taxable income of [0]; the value [995] is the
    liability of a taxable income of [9950], that is of income [22500]. *)
Theorem tax_liability_boundaries :
  (∀ self income,
      (calculate_tax_liability self income == tax_liability_spec self income)%Q)
  ∧ (calculate_tax_liability TaxAssistant_init 0 == 0)%Q
  ∧ (calculate_tax_liability TaxAssistant_init 9950 == 0)%Q
  ∧ (calculate_tax_liability TaxAssistant_init (12550 + 9950) == 995)%Q.
Proof.
  split; [apply calculate_tax_liability_spec|].
  by vm_compute.
Qed.

(** Claim C2, as stated, fails: the liability at income [9950] is [0],
    not [995]. *)
Lemma tax_liability_9950_not_995 :
  (calculate_tax_liability TaxAssistant_init 9950 == 0)%Q
  ∧ ¬ (calculate_tax_liability TaxAssistant_init 9950 == 995)%Q.
Proof. by vm_compute. Qed.

(** ** The bracket table *)

Lemma covers_whole (lo hi : Z) (r : Q) (n : Z) :
  (lo ≤ n)%Z → (n ≤ hi)%Z →
  covers ((inject_Z lo, Finite (inject_Z hi)), r) (inject_Z n).
Proof. intros H1 H2. split; cbn; by rewrite <- Zle_Qle. Qed.

Lemma covers_whole_top (lo : Z) (r : Q) (n : Z) :
  (lo ≤ n)%Z → covers ((inject_Z lo, Infinity), r) (inject_Z n).
Proof. intros H1. split; cbn; [by rewrite <- Zle_Qle|done]. Qed.

Lemma brackets_adjacent : adjacent (tax_brackets TaxAssistant_init).
Proof.
  intros b1 b2 H. unfold TaxAssistant_init in H. cbn in H.
  repeat (apply elem_of_cons in H as [H|H];
          [apply pair_eq in H as [-> ->]; unfold upper_of, lower_of; cbn [fst snd];
           eexists; split; [done|by vm_compute] |]).
  by apply elem_of_nil in H.
Qed.

Lemma brackets_disjoint (b b' : (Q * bound) * Q) (x : Q) :
  b ∈ tax_brackets TaxAssistant_init →
  b' ∈ tax_brackets TaxAssistant_init →
  covers b x → covers b' x → b = b'.
Proof.
  intros Hb Hb'. unfold TaxAssistant_init in *. cbn [tax_brackets] in *.
  unfold covers, lower_of, upper_of.
  each_bracket Hb; each_bracket Hb';
    cbn [fst snd]; intros [H1 H2] [H3 H4]; try reflexivity; exfalso; lra.
Qed.

Lemma brackets_cover_whole_dollars (n : Z) :
  (0 ≤ n)%Z → ∃ b, b ∈ tax_brackets TaxAssistant_init ∧ covers b (inject_Z n).
Proof.
  intros Hn. unfold TaxAssistant_init. cbn [tax_brackets].
  destruct (Z_le_gt_dec n 9950);
    [eexists; split; [|apply (covers_whole 0 9950); lia]; in_list|].
  destruct (Z_le_gt_dec n 40525);
    [eexists; split; [|apply (covers_whole 9951 40525); lia]; in_list|].
  destruct (Z_le_gt_dec n 86375);
    [eexists; split; [|apply (covers_whole 40526 86375); lia]; in_list|].
  destruct (Z_le_gt_dec n 164925);
    [eexists; split; [|apply (covers_whole 86376 164925); lia]; in_list|].
  destruct (Z_le_gt_dec n 209425);
    [eexists; split; [|apply (covers_whole 164926 209425); lia]; in_list|].
  destruct (Z_le_gt_dec n 523600);
    [eexists; split; [|apply (covers_whole 209426 523600); lia]; in_list|].
  eexists; split; [|apply (covers_whole_top 523601); lia]; in_list.
Qed.

(** Claim C8, as amended.  The brackets of the table are whole-dollar
    ranges with both ends included: each bracket starts exactly one dollar
    above the end of the bracket before it, no amount lies in two
    brackets, every whole-dollar amount from [0] up lies in a bracket, and
    the upper end of the last bracket is unbounded. *)
Theorem tax_brackets_whole_dollar_ranges :
  adjacent (tax_brackets TaxAssistant_init)
  ∧ (∀ b b' x, b ∈ tax_brackets TaxAssistant_init →
               b' ∈ tax_brackets TaxAssistant_init →
               covers b x → covers b' x → b = b')
  ∧ (∀ n : Z, (0 ≤ n)%Z →
              ∃ b, b ∈ tax_brackets TaxAssistant_init ∧ covers b (inject_Z n))
  ∧ last_unbounded (tax_brackets TaxAssistant_init).
Proof.
  split; [apply brackets_adjacent|].
  split; [apply brackets_disjoint|].
  split; [apply brackets_cover_whole_dollars|].
  reflexivity.
Qed.

(** Claim C8, as stated, fails: the second bracket starts at [9951], not
    at [9950] where the first one ends; the amounts strictly between the
    two, such as [9950.5], lie in no bracket, and the liability does not
    grow between a taxable income of [9950] and one of [9951]. *)
Lemma tax_brackets_not_contiguous :
  ¬ contiguous (tax_brackets TaxAssistant_init)
  ∧ (¬ ∃ b, b ∈ tax_brackets TaxAssistant_init ∧ covers b (19901 # 2))
  ∧ (calculate_tax_liability TaxAssistant_init (12550 + 9951)
     == calculate_tax_liability TaxAssistant_init (12550 + 9950))%Q.
Proof.
  split; [|split; [|by vm_compute]].
  - intros Hc.
    destruct (Hc ((0, Finite 9950), 10 # 100)%Q ((9951, Finite 40525), 12 # 100)%Q)
      as (u & Hu & Hl).
    + unfold TaxAssistant_init; cbn. apply list_elem_of_here.
    + unfold upper_of, lower_of in *; cbn [fst snd] in *.
      injection Hu as <-. by vm_compute in Hl.
  - intros (b & Hb & Hc). unfold TaxAssistant_init in *. cbn [tax_brackets] in *.
    unfold covers, lower_of, upper_of in Hc.
    each_bracket Hb; cbn [fst snd] in Hc; destruct Hc; lra.
Qed.

(** ** Investment advice *)

Lemma Qltb_true (x y : Q) : Qltb x y = true ↔ (x < y)%Q.
Proof. apply Qgtb_true. Qed.

Lemma Qltb_false (x y : Q) : Qltb x y = false ↔ (y <= x)%Q.
Proof. apply Qgtb_false. Qed.

Lemma provide_investment_advice_unset self report :
  risk_tolerance self = None ∨ investment_goals self = None →
  provide_investment_advice self report = [msg_set_profile].
Proof.
  unfold provide_investment_advice.
  intros [-> | ->]; [done|]. by destruct (risk_tolerance self).
Qed.

Lemma provide_investment_advice_caution self report risk goals :
  risk_tolerance self = Some risk → investment_goals self = Some goals →
  (savings_rate report < 10)%Q →
  provide_investment_advice self report = [msg_savings_first].
Proof.
  intros Hr Hg Hs. unfold provide_investment_advice. rewrite Hr, Hg.
  apply Qltb_true in Hs. by rewrite Hs.
Qed.

(** Each rule of the advice appends its segment to the list built so far. *)

Lemma risk_step (advice : list text) (risk : string) :
  (if bool_decide (risk = "low") then advice ++ [msg_risk_low]
   else if bool_decide (risk = "medium") then advice ++ [msg_risk_medium]
   else if bool_decide (risk = "high") then advice ++ [msg_risk_high]
   else advice)
  = advice ++ risk_advice risk.
Proof.
  unfold risk_advice.
  repeat case_bool_decide; repeat case_decide; try congruence;
    by rewrite ?app_nil_r.
Qed.

Lemma market_step (advice : list text) (stock : string) :
  (if bool_decide (stock = "bull") then advice ++ [msg_bull]
   else if bool_decide (stock = "bear") then advice ++ [msg_bear]
   else advice)
  = advice ++ market_advice stock.
Proof.
  unfold market_advice.
  repeat case_bool_decide; repeat case_decide; try congruence;
    by rewrite ?app_nil_r.
Qed.

Lemma rate_step (advice : list text) (rate : Q) :
  (if Qgtb rate 3 then advice ++ [msg_rates rate] else advice)
  = advice ++ rate_advice rate.
Proof. unfold rate_advice. destruct (Qgtb rate 3); by rewrite ?app_nil_r. Qed.

Lemma goal_step (advice : list text) (goals : string) :
  (if bool_decide (goals = "retirement") then advice ++ [msg_retirement]
   else if bool_decide (goals = "short_term") then advice ++ [msg_short_term]
   else advice)
  = advice ++ goal_advice goals.
Proof.
  unfold goal_advice.
  repeat case_bool_decide; repeat case_decide; try congruence;
    by rewrite ?app_nil_r.
Qed.

Lemma provide_investment_advice_rules self report risk goals :
  risk_tolerance self = Some risk → investment_goals self = Some goals →
  (10 <= savings_rate report)%Q →
  provide_investment_advice self report
  = risk_advice risk
    ++ market_advice (stock_market (market_conditions self))
    ++ rate_advice (interest_rates (market_conditions self))
    ++ goal_advice goals.
Proof.
  intros Hr Hg Hs. unfold provide_investment_advice. rewrite Hr, Hg.
  apply Qltb_false in Hs. rewrite Hs. cbn zeta.
  rewrite risk_step, market_step, rate_step, goal_step.
  by rewrite <- !app_assoc.
Qed.

Lemma risk_advice_other (risk : string) :
  risk ∉ ["low"; "medium"; "high"] → risk_advice risk = [].
Proof.
  intros Hn. unfold risk_advice.
  repeat case_decide; try done; subst; exfalso; apply Hn; in_list.
Qed.

(** The segments of the advice, value by value. *)
Lemma advice_segments :
  (market_advice "bull" = [msg_bull]
   ∧ market_advice "bear" = [msg_bear]
   ∧ ∀ stock, stock ≠ "bull" → stock ≠ "bear" → market_advice stock = [])
  ∧ (∀ rate, ((3 < rate)%Q → rate_advice rate = [msg_rates rate])
             ∧ ((rate <= 3)%Q → rate_advice rate = []))
  ∧ (goal_advice "retirement" = [msg_retirement]
     ∧ goal_advice "short_term" = [msg_short_term]
     ∧ ∀ goals, goals ≠ "retirement" → goals ≠ "short_term" → goal_advice goals = []).
Proof.
  split.
  { repeat split; try reflexivity.
    intros stock H1 H2. unfold market_advice. by repeat case_decide. }
  split.
  { intros rate. unfold rate_advice. split.
    - intros H. apply Qgtb_true in H. by rewrite H.
    - intros H. apply Qgtb_false in H. by rewrite H. }
  repeat split; try reflexivity.
  intros goals H1 H2. unfold goal_advice. by repeat case_decide.
Qed.

(** Claim C9.  With a risk tolerance that, once set, is one of ['low'],
    ['medium'] and ['high'], [provide_investment_advice] follows the
    short-circuit order for every report: the single prompt message when
    the risk tolerance or the goals are unset; otherwise the single
    caution message when the savings rate is below [10]; otherwise, in
    this order, exactly one of the three risk-tolerance messages, the one
    of the risk tolerance, then the market message (for ['bull'] and
    ['bear'], none otherwise), then the interest-rate message (only when
    the rate is above [3]), then the goals message (for ['retirement'] and
    ['short_term'], none otherwise). *)
Theorem investment_advice_order (self : InvestmentAdvisor) (report : MonthlyReport) :
  risk_in_domain self →
  ((risk_tolerance self = None ∨ investment_goals self = None) →
   provide_investment_advice self report = [msg_set_profile])
  ∧ (∀ risk goals,
        risk_tolerance self = Some risk → investment_goals self = Some goals →
        ((savings_rate report < 10)%Q →
         provide_investment_advice self report = [msg_savings_first])
        ∧ ((10 <= savings_rate report)%Q →
           ∃ risk_msg,
             provide_investment_advice self report
             = [risk_msg]
               ++ market_advice (stock_market (market_conditions self))
               ++ rate_advice (interest_rates (market_conditions self))
               ++ goal_advice goals
             ∧ risk_msg ∈ [msg_risk_low; msg_risk_medium; msg_risk_high]
             ∧ (risk = "low" → risk_msg = msg_risk_low)
             ∧ (risk = "medium" → risk_msg = msg_risk_medium)
             ∧ (risk = "high" → risk_msg = msg_risk_high)))
  ∧ (market_advice "bull" = [msg_bull]
     ∧ market_advice "bear" = [msg_bear]
     ∧ ∀ stock, stock ≠ "bull" → stock ≠ "bear" → market_advice stock = [])
  ∧ (∀ rate, ((3 < rate)%Q → rate_advice rate = [msg_rates rate])
             ∧ ((rate <= 3)%Q → rate_advice rate = []))
  ∧ (goal_advice "retirement" = [msg_retirement]
     ∧ goal_advice "short_term" = [msg_short_term]
     ∧ ∀ goals, goals ≠ "retirement" → goals ≠ "short_term" → goal_advice goals = []).
Proof.
  intros Hdom.
  split; [apply provide_investment_advice_unset|].
  split; [|apply advice_segments].
  intros risk goals Hr Hg. split.
  - by apply (provide_investment_advice_caution _ _ risk goals).
  - intros Hs.
    rewrite (provide_investment_advice_rules self report risk goals Hr Hg Hs).
    pose proof (Hdom risk Hr) as Hin.
    repeat (apply elem_of_cons in Hin as [->|Hin];
            [eexists; split; [reflexivity|];
             split; [in_list|]; repeat split; (done || discriminate) |]).
    by apply elem_of_nil in Hin.
Qed.

(** A medium risk tolerance, retirement goals, a bull market and a rate of
    [4], with a savings rate of [50]: the four messages, in order. *)
Lemma investment_advice_order_witness :
  provide_investment_advice
    (set_user_profile (Some "medium") (Some "retirement")
                      (InvestmentAdvisor_init lively_market))
    thrifty_report
  = [msg_risk_medium; msg_bull; msg_rates 4; msg_retirement].
Proof.
  destruct (investment_advice_order
              (set_user_profile (Some "medium") (Some "retirement")
                                (InvestmentAdvisor_init lively_market))
              thrifty_report) as (_ & H & _).
  { intros risk [= <-]. in_list. }
  destruct (H "medium" "retirement" eq_refl eq_refl) as [_ Hrules].
  destruct Hrules as (msg & -> & _ & _ & Hmed & _); [by vm_compute|].
  by rewrite (Hmed eq_refl).
Defined.

(** ** Tax advice *)

Lemma provide_tax_advice_no_income self income expenses :
  (income == 0)%Q → provide_tax_advice self income expenses = Raise ZeroDivisionError.
Proof.
  intros H0. unfold provide_tax_advice; cbn zeta. by rewrite (py_div_zero _ income H0).
Qed.

(** Claim C1 fails on the code.  At income [0], [provide_tax_advice]
    raises [ZeroDivisionError] when it computes the effective rate,
    whatever the expenses: no placeholder is substituted and no advice
    list is returned. *)
Theorem provide_tax_advice_zero_income_raises
    (self : TaxAssistant) (expenses : gmap string Q) :
  provide_tax_advice self 0 expenses = Raise ZeroDivisionError.
Proof. by apply provide_tax_advice_no_income. Qed.

(** The failure reaches the entry point: a month without income makes
    [generate_financial_report] raise. *)
Lemma generate_financial_report_no_income (self : FinancialAIAgent) (y m : Z) :
  (period_total "income" y m (transactions (budget_manager self)) == 0)%Q →
  generate_financial_report self y m = Raise ZeroDivisionError.
Proof.
  intros H0.
  destruct (get_monthly_report_ok (budget_manager self) y m) as (r & Hr & Hi & _).
  rewrite monthly_filter_period_total in Hi. rewrite <- Hi in H0.
  unfold generate_financial_report. rewrite Hr. cbn [mbind res_bind].
  unfold _generate_recommendations; cbn zeta.
  by rewrite provide_tax_advice_no_income.
Qed.

Lemma generate_financial_report_fresh_agent (market : MarketConditions) (y m : Z) :
  generate_financial_report (FinancialAIAgent_init market) y m = Raise ZeroDivisionError.
Proof. by apply generate_financial_report_no_income. Qed.

(** ** The sample agent *)

(** The scenario of [create_sample_financial_agent], reported for the
    month of its transactions. *)
Example sample_scenario :
  ∃ r st housing,
    get_monthly_report sample_manager 2024 5 = Ok r
    ∧ (total_income r == 5000)%Q
    ∧ (total_expenses r == 2500)%Q
    ∧ (savings_rate r == 50)%Q
    ∧ get_budget_status sample_manager = Ok st
    ∧ st !! "Housing" = Some housing
    ∧ status_budget housing = 1600%Q
    ∧ spent housing = 1500%Q
    ∧ remaining housing = 100%Q
    ∧ (percentage_used housing == 9375 # 100)%Q.
Proof.
  destruct (get_monthly_report_ok sample_manager 2024 5)
    as (r & Hr & Hi & He & Hpos & _).
  destruct (get_budget_status_lookup sample_manager) as (st & Hst & Hl).
  assert (Hi' : total_income r = 5000%Q) by (rewrite Hi; by vm_compute).
  assert (He' : total_expenses r = 2500%Q) by (rewrite He; by vm_compute).
  exists r, st. eexists.
  split; [done|]. split; [by rewrite Hi'|]. split; [by rewrite He'|].
  split; [rewrite Hpos; rewrite Hi', ?He'; by vm_compute|].
  split; [done|]. rewrite Hl.
  split; [vm_compute; reflexivity|].
  vm_compute. repeat split.
Qed.

(** * Further properties of the budget manager *)

(** ** Budget targets *)

Lemma set_budget_known c a s :
  is_Some (categories s !! c) →
  set_budget c a s
  = (Ok tt, with_monthly_budget (<[c := a]> (monthly_budget s)) s).
Proof.
  intros Hc. unfold set_budget, m_bind, m_get, m_put. cbn beta.
  apply py_in_true in Hc. by rewrite Hc.
Qed.

Lemma set_budget_unknown c a s :
  categories s !! c = None →
  set_budget c a s = (Raise (ValueError ("Invalid category: " +:+ c)), s).
Proof.
  intros Hc. unfold set_budget, m_bind, m_get, m_raise. cbn beta.
  apply py_in_false in Hc. by rewrite Hc.
Qed.

(** What [set_budget] can touch, however it ends. *)
Lemma set_budget_frame c a s :
  categories (set_budget c a s).2 = categories s
  ∧ transactions (set_budget c a s).2 = transactions s.
Proof.
  destruct (categories s !! c) eqn:E.
  - by rewrite set_budget_known by (by rewrite E).
  - by rewrite set_budget_unknown.
Qed.

(** Property X1.  [set_budget] on a name outside the registry raises
    [ValueError] and leaves the manager exactly as it was: no target is
    stored for the unknown name. *)
Theorem set_budget_invalid_category_atomic (s : BudgetManager) (c : string) (a : Q) :
  well_formed s →
  c ∉ category_names →
  set_budget c a s = (Raise (ValueError ("Invalid category: " +:+ c)), s).
Proof.
  intros Hwf Hc. apply set_budget_unknown.
  destruct (categories s !! c) eqn:E; [|done].
  exfalso. apply Hc, Hwf. by rewrite E.
Qed.

(** ['Crypto'] gets no target on a fresh manager. *)
Lemma set_budget_invalid_category_atomic_witness :
  set_budget "Crypto" 250 BudgetManager_init
  = (Raise (ValueError "Invalid category: Crypto"), BudgetManager_init).
Proof.
  apply (set_budget_invalid_category_atomic BudgetManager_init "Crypto" 250
           init_well_formed).
  apply (bool_decide_unpack _). by vm_compute.
Defined.

(** Property X2.  On a registered category [set_budget] succeeds, and
    [get_budget] then reads back the amount just set; the targets of the
    other categories, the ledger and the running totals are as before; a
    second [set_budget] on the category overwrites the first, so that only
    the last write counts. *)
Theorem set_budget_get_budget (s : BudgetManager) (c : string) (a : Q) :
  well_formed s →
  c ∈ category_names →
  ∃ s', set_budget c a s = (Ok tt, s')
    ∧ get_budget s' c = a
    ∧ (∀ c', c' ≠ c → get_budget s' c' = get_budget s c')
    ∧ categories s' = categories s
    ∧ transactions s' = transactions s
    ∧ ∀ b, set_budget c b s' = set_budget c b s.
Proof.
  intros Hwf Hc. apply Hwf in Hc.
  eexists. split; [by apply set_budget_known|].
  unfold get_budget, with_monthly_budget; cbn [monthly_budget categories transactions].
  split; [by rewrite lookup_insert_eq|].
  split; [intros c' Hne; by rewrite lookup_insert_ne|].
  split; [done|]. split; [done|].
  intros b. rewrite !set_budget_known by done.
  unfold with_monthly_budget; cbn [monthly_budget categories transactions monthly_spending].
  by rewrite insert_insert_eq.
Qed.

(** A target of [500] for ['Food'] on a fresh manager. *)
Lemma set_budget_get_budget_witness :
  ∃ s', set_budget "Food" 500 BudgetManager_init = (Ok tt, s')
    ∧ get_budget s' "Food" = 500%Q
    ∧ (∀ c', c' ≠ "Food" → get_budget s' c' = get_budget BudgetManager_init c')
    ∧ categories s' = categories BudgetManager_init
    ∧ transactions s' = transactions BudgetManager_init
    ∧ ∀ b, set_budget "Food" b s' = set_budget "Food" b BudgetManager_init.
Proof.
  apply (set_budget_get_budget BudgetManager_init "Food" 500 init_well_formed).
  unfold category_names. in_list.
Defined.

(** ** What every reachable manager satisfies *)

Lemma after_calls_ind (P : BudgetManager → Prop) (calls : list call) (s : BudgetManager) :
  P s →
  (∀ s c, P s → P (run_call c s).2) →
  P (after_calls calls s).
Proof.
  intros Hs Hstep. revert s Hs. unfold after_calls.
  induction calls as [|c calls IH]; intros s Hs; [done|].
  cbn [foldl]. apply IH. by apply Hstep.
Qed.

Lemma run_call_well_formed c s : well_formed s → well_formed (run_call c s).2.
Proof.
  destruct c; cbn [run_call].
  - apply set_budget_well_formed.
  - apply add_transaction_well_formed.
Qed.

Lemma run_call_ledger c s :
  transactions (run_call c s).2 = transactions s
  ∨ ∃ t, transactions (run_call c s).2 = transactions s ++ [t]
         ∧ is_Some (categories s !! category t).
Proof.
  destruct c as [c a | now a c desc ty d]; cbn [run_call].
  - left. apply set_budget_frame.
  - destruct (categories s !! c) eqn:E.
    + destruct (add_transaction_frame now a c desc ty d s) as (_ & _ & [H|H]);
        [by left|right].
      eexists. split; [done|]. cbn [category]. by rewrite E.
    + left. by rewrite add_transaction_unknown.
Qed.

Lemma run_call_budget_keys c s k :
  well_formed s →
  is_Some (monthly_budget (run_call c s).2 !! k) →
  is_Some (monthly_budget s !! k) ∨ k ∈ category_names.
Proof.
  intros Hwf. destruct c as [c a | now a c desc ty d]; cbn [run_call].
  - destruct (categories s !! c) eqn:E.
    + rewrite set_budget_known by (by rewrite E).
      unfold with_monthly_budget; cbn [snd monthly_budget].
      rewrite lookup_insert. case_decide; subst; [|by left].
      intros _. right. apply Hwf. by rewrite E.
    + rewrite set_budget_unknown by done. by left.
  - destruct (add_transaction_frame now a c desc ty d s) as (-> & _). by left.
Qed.

Lemma after_calls_invariant (calls : list call) :
  well_formed (after_calls calls BudgetManager_init)
  ∧ Forall (λ t, category t ∈ category_names)
           (transactions (after_calls calls BudgetManager_init))
  ∧ ∀ k, is_Some (monthly_budget (after_calls calls BudgetManager_init) !! k) →
         k ∈ category_names.
Proof.
  apply (after_calls_ind
           (λ s, well_formed s
                 ∧ Forall (λ t, category t ∈ category_names) (transactions s)
                 ∧ ∀ k, is_Some (monthly_budget s !! k) → k ∈ category_names)).
  - split; [apply init_well_formed|]. split; [by apply Forall_nil|].
    intros k. cbn. rewrite lookup_empty. by intros [? ?].
  - intros s c (Hwf & Hl & Hb). split; [by apply run_call_well_formed|]. split.
    + destruct (run_call_ledger c s) as [-> | (t & -> & Ht)]; [done|].
      apply Forall_app. split; [done|].
      apply Forall_cons. split; [by apply Hwf | by apply Forall_nil].
    + intros k Hk. destruct (run_call_budget_keys c s k Hwf Hk); auto.
Qed.

(** Property X3.  Whatever calls of [set_budget] and [add_transaction]
    were made on a fresh manager, and whichever of them raised: the keys of
    the running totals are the fixed category names, every transaction of
    the ledger carries a registered category, and only registered
    categories have a target. *)
Theorem reachable_manager_invariant (calls : list call) :
  (∀ c, is_Some (categories (after_calls calls BudgetManager_init) !! c)
        ↔ c ∈ category_names)
  ∧ (∀ t, t ∈ transactions (after_calls calls BudgetManager_init) →
          category t ∈ category_names)
  ∧ (∀ k, is_Some (monthly_budget (after_calls calls BudgetManager_init) !! k) →
          k ∈ category_names).
Proof.
  destruct (after_calls_invariant calls) as (Hwf & Hl & Hb).
  split; [exact Hwf|]. split; [|exact Hb].
  intros t Ht. by apply (proj1 (Forall_forall _ _) Hl).
Qed.

(** Property X4.  The ledger only grows: after any call, and so after any
    sequence of calls, the ledger starts with the ledger before; no call
    removes, reorders or rewrites a recorded transaction. *)
Theorem ledger_append_only (calls : list call) (s : BudgetManager) :
  transactions s `prefix_of` transactions (after_calls calls s).
Proof.
  apply (after_calls_ind (λ s', transactions s `prefix_of` transactions s')).
  - done.
  - intros s' c Hp.
    destruct (run_call_ledger c s') as [-> | (t & -> & _)]; [done|].
    by apply prefix_app_r.
Qed.

(** ** Running totals and the ledger *)

Lemma py_sum_snoc (l : list Q) (x : Q) : py_sum (l ++ [x]) = (py_sum l + x)%Q.
Proof. unfold py_sum. by rewrite foldl_snoc. Qed.

Lemma init_totals (c : string) :
  c ∈ category_names → categories BudgetManager_init !! c = Some 0%Q.
Proof.
  intros H. unfold category_names in H. each_bracket H; by vm_compute.
Qed.

Lemma posted_total_snoc_in (c : string) (ledger : list Transaction) (t : Transaction) :
  posts_to c t → posted_total c (ledger ++ [t]) = (posted_total c ledger + amount t)%Q.
Proof.
  intros Hp. unfold posted_total.
  rewrite filter_app, filter_cons_True, filter_nil by done.
  by rewrite fmap_snoc, py_sum_snoc.
Qed.

Lemma posted_total_snoc_out (c : string) (ledger : list Transaction) (t : Transaction) :
  ¬ posts_to c t → posted_total c (ledger ++ [t]) = posted_total c ledger.
Proof.
  intros Hp. unfold posted_total.
  by rewrite filter_app, filter_cons_False, filter_nil, app_nil_r by done.
Qed.

Lemma run_call_totals_match (c0 : call) (s : BudgetManager) :
  well_formed s → totals_match s → totals_match (run_call c0 s).2.
Proof.
  intros Hwf Ht. destruct c0 as [c a | now a c desc ty d]; cbn [run_call].
  { intros k Hk. destruct (set_budget_frame c a s) as [-> ->]. by apply Ht. }
  destruct (categories s !! c) as [old|] eqn:Hc;
    [|by rewrite add_transaction_unknown].
  assert (Hcn : c ∈ category_names) by (apply Hwf; by rewrite Hc).
  destruct (decide (ty = "expense")) as [->|Hty].
  - rewrite (add_transaction_expense _ _ _ _ _ _ old) by done.
    intros k Hk. cbn [snd categories transactions].
    destruct (decide (k = c)) as [->|Hne].
    + rewrite lookup_insert_eq, posted_total_snoc_in by (by left).
      cbn [amount]. rewrite (Ht c Hcn) in Hc. by injection Hc as ->.
    + rewrite lookup_insert_ne, posted_total_snoc_out by (try done; intros [[_ ?]|[? _]]; done).
      by apply Ht.
  - pose proof (Ht "Income" income_registered) as Hinc.
    rewrite (add_transaction_not_expense _ _ _ _ _ _ _ _ (mk_is_Some _ _ Hc) Hinc Hty).
    intros k Hk. cbn [snd categories transactions].
    destruct (decide (k = "Income")) as [->|Hne].
    + by rewrite lookup_insert_eq, posted_total_snoc_in by (by right).
    + rewrite lookup_insert_ne, posted_total_snoc_out by (try done; intros [[? _]|[_ ?]]; done).
      by apply Ht.
Qed.

(** Property X5.  On every manager reached from a fresh one, the running
    total of each category is the sum, in ledger order, of the amounts
    posted to it: the expenses recorded against the category and, for
    ['Income'], every transaction of any other type, whatever its
    category. *)
Theorem running_totals_from_ledger (calls : list call) (c : string) :
  c ∈ category_names →
  categories (after_calls calls BudgetManager_init) !! c
  = Some (posted_total c (transactions (after_calls calls BudgetManager_init))).
Proof.
  revert c.
  apply (after_calls_ind (λ s, well_formed s ∧ totals_match s)).
  - split; [apply init_well_formed|]. intros c Hc. by rewrite init_totals.
  - intros s c0 [Hwf Ht]. split.
    + by apply run_call_well_formed.
    + by apply run_call_totals_match.
Qed.

(** A salary recorded against ['Savings'] and a rent against ['Housing']:
    the total of ['Income'] is the salary. *)
Lemma running_totals_from_ledger_witness :
  let calls :=
    [ AddTransaction noon 5000 "Savings" "Salary" "income" None;
      AddTransaction noon 1500 "Housing" "Rent" "expense" None;
      AddTransaction noon 20 "Crypto" "Coins" "expense" None ] in
  categories (after_calls calls BudgetManager_init) !! "Income"
  = Some (posted_total "Income" (transactions (after_calls calls BudgetManager_init)))
  ∧ (posted_total "Income" (transactions (after_calls calls BudgetManager_init)) == 5000)%Q
  ∧ (posted_total "Savings" (transactions (after_calls calls BudgetManager_init)) == 0)%Q.
Proof.
  cbn zeta. split; [|split; vm_compute; reflexivity].
  apply running_totals_from_ledger. unfold category_names. in_list.
Defined.

(** ** The breakdown of the monthly report *)

Lemma get_monthly_report_by_category s y m :
  ∃ r, get_monthly_report s y m = Ok r
    ∧ ∀ c, transactions_by_category r !! c
           = categories s !! c
             ≫= λ _, report_category s (monthly_transactions_of s y m) c ∅ !! c.
Proof.
  unfold get_monthly_report. cbn zeta.
  cbn [total_income total_expenses transactions_by_category savings_rate].
  set (ti := py_sum (amount <$> filter (λ t, transaction_type t = "income") _)).
  destruct (Qgtb ti 0) eqn:E.
  - apply Qgtb_true in E.
    rewrite py_div_ok by (intros H0; rewrite H0 in E; by apply Qlt_irrefl in E).
    eexists. split; [done|]. intros c. apply by_category_lookup.
  - eexists. split; [done|]. intros c. apply by_category_lookup.
Qed.

Lemma report_category_lookup s monthly c :
  report_category s monthly c ∅ !! c
  = match filter (λ t, category t = c) monthly with
    | [] => None
    | _ :: _ =>
        Some {| total := py_sum (amount <$> filter (λ t, category t = c) monthly);
                count := length (filter (λ t, category t = c) monthly);
                budget := get_budget s c;
                lines := report_line <$> filter (λ t, category t = c) monthly |}
    end.
Proof.
  unfold report_category. destruct (filter _ monthly) eqn:E.
  - apply lookup_empty.
  - by rewrite lookup_insert_eq.
Qed.

(** Property X6.  The breakdown of the monthly report has an entry for a
    category exactly when the ledger has a transaction of that category in
    the month: the entry carries the sum of their amounts (income and
    expenses alike), their number, the current target of the category and
    one line per transaction in ledger order; a category without a
    transaction in the month, and a name that is no category, have no
    entry. *)
Theorem monthly_report_breakdown (s : BudgetManager) (y m : Z) :
  ∃ r, get_monthly_report s y m = Ok r
    ∧ ∀ c,
        (is_Some (categories s !! c) →
         filter (λ t, category t = c) (monthly_transactions_of s y m) ≠ [] →
         transactions_by_category r !! c
         = Some {| total := py_sum (amount <$> filter (λ t, category t = c)
                                                      (monthly_transactions_of s y m));
                   count := length (filter (λ t, category t = c)
                                           (monthly_transactions_of s y m));
                   budget := get_budget s c;
                   lines := report_line <$> filter (λ t, category t = c)
                                                   (monthly_transactions_of s y m) |})
        ∧ (filter (λ t, category t = c) (monthly_transactions_of s y m) = [] →
           transactions_by_category r !! c = None)
        ∧ (categories s !! c = None → transactions_by_category r !! c = None).
Proof.
  destruct (get_monthly_report_by_category s y m) as (r & Hr & Hl).
  exists r. split; [done|]. intros c. rewrite Hl, report_category_lookup.
  split; [|split].
  - intros [x ->] Hne. cbn. by destruct (filter _ (monthly_transactions_of s y m)).
  - intros ->. by destruct (categories s !! c).
  - by intros ->.
Qed.

(** The sample month: two entries of the breakdown, and none for
    ['Utilities']. *)
Lemma monthly_report_breakdown_witness :
  ∃ r e, get_monthly_report sample_manager 2024 5 = Ok r
    ∧ transactions_by_category r !! "Food" = Some e
    ∧ total e = py_sum [400%Q]
    ∧ count e = 1%nat
    ∧ budget e = 500%Q
    ∧ transactions_by_category r !! "Utilities" = None.
Proof.
  destruct (monthly_report_breakdown sample_manager 2024 5) as (r & Hr & H).
  exists r. eexists. split; [done|].
  destruct (H "Food") as (Hfood & _). destruct (H "Utilities") as (_ & Hnone & _).
  rewrite Hfood; [|vm_compute; eauto|vm_compute; discriminate].
  rewrite Hnone; [|vm_compute; reflexivity].
  repeat split; vm_compute; reflexivity.
Defined.

(** Property X7.  On every manager reached from a fresh one, each
    transaction of the month is listed in the report: the breakdown has an
    entry for its category, and the entry has the line of the
    transaction. *)
Theorem monthly_report_lists_every_transaction
    (calls : list call) (y m : Z) (t : Transaction) :
  t ∈ monthly_transactions_of (after_calls calls BudgetManager_init) y m →
  ∃ r e, get_monthly_report (after_calls calls BudgetManager_init) y m = Ok r
    ∧ transactions_by_category r !! category t = Some e
    ∧ report_line t ∈ lines e
    ∧ (1 ≤ count e)%nat.
Proof.
  intros Ht.
  destruct (after_calls_invariant calls) as (Hwf & Hl & _).
  set (s := after_calls calls BudgetManager_init) in *.
  destruct (get_monthly_report_by_category s y m) as (r & Hr & Hlook).
  assert (Hin : t ∈ filter (λ t', category t' = category t) (monthly_transactions_of s y m))
    by (by apply list_elem_of_filter).
  assert (Hreg : is_Some (categories s !! category t)).
  { apply Hwf. apply (proj1 (Forall_forall _ _) Hl).
    unfold monthly_transactions_of in Ht. by apply list_elem_of_filter in Ht as [_ ?]. }
  pose proof (Hlook (category t)) as Hlk.
  rewrite report_category_lookup in Hlk.
  destruct Hreg as [x Hx]. rewrite Hx in Hlk. cbn [mbind option_bind] in Hlk.
  destruct (filter _ (monthly_transactions_of s y m)) as [|t0 l] eqn:E.
  { by apply elem_of_nil in Hin. }
  exists r. eexists. split; [done|]. split; [exact Hlk|].
  cbn [lines count]. split.
  - by apply list_elem_of_fmap_2.
  - cbn [length]. lia.
Qed.

(** A rent recorded in May shows in the report of May. *)
Lemma monthly_report_lists_every_transaction_witness :
  let rent := {| date := noon; amount := 1500; category := "Housing";
                 description := "Rent"; transaction_type := "expense" |} in
  ∃ r e,
    get_monthly_report
      (after_calls [AddTransaction noon 1500 "Housing" "Rent" "expense" None]
                   BudgetManager_init) 2024 5 = Ok r
    ∧ transactions_by_category r !! "Housing" = Some e
    ∧ report_line rent ∈ lines e
    ∧ (1 ≤ count e)%nat.
Proof.
  cbn zeta.
  apply (monthly_report_lists_every_transaction
           [AddTransaction noon 1500 "Housing" "Rent" "expense" None] 2024 5
           {| date := noon; amount := 1500; category := "Housing";
              description := "Rent"; transaction_type := "expense" |}).
  vm_compute. apply list_elem_of_here.
Defined.

(** ** Reports and statuses across calls *)

Lemma get_monthly_report_inv s y m r :
  get_monthly_report s y m = Ok r →
  total_income r
  = py_sum (amount <$> filter (λ t, transaction_type t = "income")
                              (monthly_transactions_of s y m))
  ∧ total_expenses r
    = py_sum (amount <$> filter (λ t, transaction_type t = "expense")
                                (monthly_transactions_of s y m))
  ∧ ((0 < total_income r)%Q →
     savings_rate r = ((total_income r - total_expenses r) / total_income r * 100)%Q)
  ∧ ((total_income r <= 0)%Q → savings_rate r = 0%Q)
  ∧ ∀ c, transactions_by_category r !! c
         = categories s !! c
           ≫= λ _, report_category s (monthly_transactions_of s y m) c ∅ !! c.
Proof.
  intros Hr.
  destruct (get_monthly_report_ok s y m) as (r1 & Hr1 & H1 & H2 & H3 & H4).
  destruct (get_monthly_report_by_category s y m) as (r2 & Hr2 & H5).
  rewrite Hr in Hr1, Hr2. injection Hr1 as <-. injection Hr2 as <-. done.
Qed.

(** Two reports with the same totals have the same savings rate. *)
Lemma savings_rate_of_totals s1 s2 y1 m1 y2 m2 r1 r2 :
  get_monthly_report s1 y1 m1 = Ok r1 →
  get_monthly_report s2 y2 m2 = Ok r2 →
  total_income r1 = total_income r2 →
  total_expenses r1 = total_expenses r2 →
  savings_rate r1 = savings_rate r2.
Proof.
  intros Hr1 Hr2 Hi He.
  destruct (get_monthly_report_inv _ _ _ _ Hr1) as (_ & _ & Hp1 & Hz1 & _).
  destruct (get_monthly_report_inv _ _ _ _ Hr2) as (_ & _ & Hp2 & Hz2 & _).
  destruct (Qlt_le_dec 0 (total_income r1)) as [Hpos|Hle].
  - rewrite Hp1 by done. rewrite Hp2 by (by rewrite <- Hi). by rewrite Hi, He.
  - rewrite Hz1 by done. rewrite Hz2 by (by rewrite <- Hi). done.
Qed.

(** Property X8.  Setting a target does not move the figures of any
    monthly report: total income, total expenses and savings rate are as
    before, and so is every entry of the breakdown except for the target it
    shows, which is the current one. *)
Theorem set_budget_keeps_report_figures (s : BudgetManager) (c : string) (a : Q) (y m : Z) :
  ∃ r r', get_monthly_report s y m = Ok r
    ∧ get_monthly_report (set_budget c a s).2 y m = Ok r'
    ∧ total_income r' = total_income r
    ∧ total_expenses r' = total_expenses r
    ∧ savings_rate r' = savings_rate r
    ∧ ∀ k, transactions_by_category r' !! k
           = (λ e, {| total := total e; count := count e;
                      budget := get_budget (set_budget c a s).2 k;
                      lines := lines e |})
             <$> transactions_by_category r !! k.
Proof.
  destruct (get_monthly_report_ok s y m) as (r & Hr & _).
  destruct (get_monthly_report_ok (set_budget c a s).2 y m) as (r' & Hr' & _).
  exists r, r'. split; [done|]. split; [done|].
  destruct (get_monthly_report_inv _ _ _ _ Hr) as (Hi & He & _ & _ & Hl).
  destruct (get_monthly_report_inv _ _ _ _ Hr') as (Hi' & He' & _ & _ & Hl').
  destruct (set_budget_frame c a s) as [Hc Ht].
  assert (Hm : monthly_transactions_of (set_budget c a s).2 y m
               = monthly_transactions_of s y m)
    by (unfold monthly_transactions_of; by rewrite Ht).
  rewrite Hm in Hi', He', Hl'.
  assert (Hti : total_income r' = total_income r) by (by rewrite Hi, Hi').
  assert (Hte : total_expenses r' = total_expenses r) by (by rewrite He, He').
  split; [done|]. split; [done|].
  split; [by apply (savings_rate_of_totals _ _ _ _ _ _ _ _ Hr' Hr)|].
  intros k. rewrite Hl, Hl', Hc, !report_category_lookup.
  destruct (categories s !! k); [|done]. cbn [mbind option_bind].
  set (l := filter _ (monthly_transactions_of s y m)).
  destruct l; reflexivity.
Qed.

Lemma add_transaction_appends now a c desc ty d s :
  well_formed s → c ∈ category_names →
  transactions (add_transaction now a c desc ty d s).2
  = transactions s ++ [ {| date := default now d; amount := a; category := c;
                           description := desc; transaction_type := ty |} ].
Proof.
  intros Hwf Hc. apply Hwf in Hc. destruct Hc as [old Hold].
  destruct (proj2 (Hwf "Income") income_registered) as [inc Hinc].
  destruct (decide (ty = "expense")) as [->|Hty].
  - by rewrite (add_transaction_expense _ _ _ _ _ _ old).
  - by rewrite (add_transaction_not_expense _ _ _ _ _ _ _ inc) by (by rewrite ?Hold).
Qed.

(** Property X9.  Recording a transaction dated in a month moves the
    totals of that month's report by its type alone: an ['income'] raises
    total income by the amount, an ['expense'] raises total expenses by
    the amount, and a transaction of any other type changes neither
    total, although its amount is credited to the running total of
    ['Income']. *)
Theorem add_transaction_report_totals
    (now : datetime) (s : BudgetManager) (a : Q) (c desc ty : string)
    (d : option datetime) :
  well_formed s →
  c ∈ category_names →
  ∃ r r',
    get_monthly_report s (year (default now d)) (month (default now d)) = Ok r
    ∧ get_monthly_report (add_transaction now a c desc ty d s).2
                         (year (default now d)) (month (default now d)) = Ok r'
    ∧ total_income r'
      = (if decide (ty = "income") then (total_income r + a)%Q else total_income r)
    ∧ total_expenses r'
      = (if decide (ty = "expense") then (total_expenses r + a)%Q else total_expenses r).
Proof.
  intros Hwf Hc.
  set (y := year (default now d)). set (m := month (default now d)).
  destruct (get_monthly_report_ok s y m) as (r & Hr & Hi & He & _).
  destruct (get_monthly_report_ok (add_transaction now a c desc ty d s).2 y m)
    as (r' & Hr' & Hi' & He' & _).
  exists r, r'. split; [done|]. split; [done|].
  assert (Hm : monthly_transactions_of (add_transaction now a c desc ty d s).2 y m
               = monthly_transactions_of s y m
                 ++ [ {| date := default now d; amount := a; category := c;
                         description := desc; transaction_type := ty |} ]).
  { unfold monthly_transactions_of. rewrite add_transaction_appends by done.
    by rewrite filter_app, filter_cons_True, filter_nil by done. }
  rewrite Hm in Hi', He'. rewrite Hi', He', Hi, He, !filter_app.
  split.
  - case_decide.
    + rewrite filter_cons_True, filter_nil by done. by rewrite fmap_snoc, py_sum_snoc.
    + by rewrite filter_cons_False, filter_nil, app_nil_r by done.
  - case_decide.
    + rewrite filter_cons_True, filter_nil by done. by rewrite fmap_snoc, py_sum_snoc.
    + by rewrite filter_cons_False, filter_nil, app_nil_r by done.
Qed.

(** A refund against ['Food'] on a fresh manager leaves the totals of
    May as they were. *)
Lemma add_transaction_report_totals_witness :
  ∃ r r',
    get_monthly_report BudgetManager_init 2024 5 = Ok r
    ∧ get_monthly_report
        (add_transaction noon 30 "Food" "Returned jar" "refund" None
                         BudgetManager_init).2 2024 5 = Ok r'
    ∧ total_income r' = total_income r
    ∧ total_expenses r' = total_expenses r.
Proof.
  apply (add_transaction_report_totals noon BudgetManager_init
           30 "Food" "Returned jar" "refund" None).
  - apply init_well_formed.
  - unfold category_names. in_list.
Defined.

Lemma status_entry_budget s1 s2 c v :
  monthly_budget s1 = monthly_budget s2 → status_entry s1 c v = status_entry s2 c v.
Proof. intros Hb. unfold status_entry, get_budget. by rewrite Hb. Qed.

(** Property X10.  Recording an expense against a category with a
    positive target shows in that category's budget status: [spent] is the
    former [spent] plus the amount, [remaining] and [percentage_used] are
    the target minus the new [spent] and the new [spent] over the target
    times [100], the target stays, and the status of every other category
    is as before. *)
Theorem expense_moves_budget_status
    (now : datetime) (s : BudgetManager) (a : Q) (c desc : string)
    (d : option datetime) :
  well_formed s →
  c ∈ category_names →
  (0 < get_budget s c)%Q →
  ∃ st st' e e',
    get_budget_status s = Ok st
    ∧ get_budget_status (add_transaction now a c desc "expense" d s).2 = Ok st'
    ∧ st !! c = Some e
    ∧ st' !! c = Some e'
    ∧ status_budget e' = status_budget e
    ∧ spent e' = (spent e + a)%Q
    ∧ remaining e' = (status_budget e - (spent e + a))%Q
    ∧ percentage_used e' = ((spent e + a) / status_budget e * 100)%Q
    ∧ ∀ c', c' ≠ c → st' !! c' = st !! c'.
Proof.
  intros Hwf Hc Hpos. apply Hwf in Hc. destruct Hc as [old Hold].
  destruct (get_budget_status_lookup s) as (st & Hst & Hl).
  destruct (get_budget_status_lookup (add_transaction now a c desc "expense" d s).2)
    as (st' & Hst' & Hl').
  rewrite (add_transaction_expense _ _ _ _ _ _ old) in Hl' by done.
  cbn [snd categories] in Hl'.
  assert (Hcur : ∀ k, st' !! k = <[c := (old + a)%Q]> (categories s) !! k
                                 ≫= status_entry s k).
  { intros k. rewrite Hl'. destruct (<[c:=_]> (categories s) !! k); [|done].
    cbn [mbind option_bind]. by apply status_entry_budget. }
  pose proof (Hl c) as Hc0. pose proof (Hcur c) as Hc1.
  rewrite Hold in Hc0. rewrite lookup_insert_eq in Hc1.
  cbn [mbind option_bind] in Hc0, Hc1. unfold status_entry in Hc0, Hc1.
  assert (Hg : Qgtb (get_budget s c) 0 = true) by (by apply Qgtb_true).
  rewrite Hg in Hc0, Hc1.
  exists st, st'. eexists. eexists.
  split; [done|]. split; [done|]. split; [exact Hc0|]. split; [exact Hc1|].
  cbn [status_budget spent remaining percentage_used].
  split; [done|]. split; [done|]. split; [done|]. split; [done|].
  intros c' Hne. by rewrite Hcur, Hl, lookup_insert_ne.
Qed.

(** The sample manager is what the calls of the sample leave of a fresh
    manager, so it has the fixed category keys. *)
Lemma sample_manager_after_calls :
  sample_manager
  = after_calls
      [ SetBudget "Housing" 1600; SetBudget "Food" 500;
        SetBudget "Transportation" 300;
        AddTransaction noon 5000 "Income" "Monthly Salary" "income" None;
        AddTransaction noon 1500 "Housing" "Rent" "expense" None;
        AddTransaction noon 400 "Food" "Groceries" "expense" None;
        AddTransaction noon 200 "Transportation" "Gas" "expense" None;
        AddTransaction noon 100 "charitable_contributions" "Donation" "expense" None;
        AddTransaction noon 300 "medical_expenses" "Doctor visit" "expense" None ]
      BudgetManager_init.
Proof. vm_compute. reflexivity. Qed.

Lemma sample_manager_well_formed : well_formed sample_manager.
Proof.
  rewrite sample_manager_after_calls.
  apply (after_calls_ind well_formed); [apply init_well_formed|].
  intros s0 c0. apply run_call_well_formed.
Qed.

(** Groceries for [40] against a ['Food'] target of [500]. *)
Lemma expense_moves_budget_status_witness :
  ∃ st st' e e',
    get_budget_status sample_manager = Ok st
    ∧ get_budget_status
        (add_transaction noon 40 "Food" "Groceries" "expense" None sample_manager).2
      = Ok st'
    ∧ st !! "Food" = Some e
    ∧ st' !! "Food" = Some e'
    ∧ status_budget e' = status_budget e
    ∧ spent e' = (spent e + 40)%Q
    ∧ remaining e' = (status_budget e - (spent e + 40))%Q
    ∧ percentage_used e' = ((spent e + 40) / status_budget e * 100)%Q
    ∧ ∀ c', c' ≠ "Food" → st' !! c' = st !! c'.
Proof.
  apply (expense_moves_budget_status noon sample_manager 40 "Food" "Groceries" None).
  - apply sample_manager_well_formed.
  - unfold category_names. in_list.
  - vm_compute. reflexivity.
Defined.

(** * Further properties of the tax assistant *)

(** ** The liability as a function of income *)

(** Case analysis on the next comparison of numbers in the goal. *)
Ltac q_case :=
  match goal with
  | |- context [Qgtb ?a ?b] =>
      let E := fresh "E" in
      destruct (Qgtb a b) eqn:E;
      [apply Qgtb_true in E | apply Qgtb_false in E]
  end.

Lemma py_max_nonneg (a : Q) : (0 <= py_max a 0)%Q.
Proof. unfold py_max. q_case; lra. Qed.

Lemma py_max_mono (a b : Q) : (a <= b)%Q → (py_max a 0 <= py_max b 0)%Q.
Proof. intros H. unfold py_max. do 2 q_case; lra. Qed.

Lemma py_max_nonpos (a : Q) : (a <= 0)%Q → (py_max a 0 <= 0)%Q.
Proof. intros H. unfold py_max. q_case; lra. Qed.

Lemma py_min_mono (x1 x2 : Q) (u : bound) :
  (x1 <= x2)%Q → (py_min x1 u <= py_min x2 u)%Q.
Proof.
  intros H. destruct u as [v|]; cbn [py_min]; [|done].
  unfold Qltb. do 2 q_case; lra.
Qed.

Lemma py_min_ge (x : Q) (u : bound) (l : Q) :
  (l <= x)%Q →
  match u with Finite v => (l <= v)%Q | Infinity => True end →
  (l <= py_min x u)%Q.
Proof.
  intros H1 H2. destruct u as [v|]; cbn [py_min]; [|done].
  unfold Qltb. q_case; lra.
Qed.

Lemma bracket_share_nonneg (b : (Q * bound) * Q) (t : Q) :
  sane_bracket b → (0 <= bracket_share t b)%Q.
Proof.
  destruct b as [[l u] r].
  unfold sane_bracket, bracket_share, lower_of, upper_of, rate_of.
  cbn [fst snd]. intros (Hl & Hr & Hu).
  q_case; [|lra].
  apply Qmult_le_0_compat; [|done].
  pose proof (py_min_ge t u l (Qlt_le_weak _ _ E) Hu). lra.
Qed.

Lemma bracket_share_mono (b : (Q * bound) * Q) (t1 t2 : Q) :
  sane_bracket b → (t1 <= t2)%Q → (bracket_share t1 b <= bracket_share t2 b)%Q.
Proof.
  intros Hs Ht. pose proof (bracket_share_nonneg b t2 Hs) as Hn.
  destruct b as [[l u] r].
  unfold sane_bracket, bracket_share, lower_of, upper_of, rate_of in *.
  cbn [fst snd] in *. destruct Hs as (Hl & Hr & Hu).
  destruct (Qgtb t1 l) eqn:E1; [|done].
  apply Qgtb_true in E1.
  assert (E2 : Qgtb t2 l = true) by (apply Qgtb_true; lra).
  rewrite E2. apply Qmult_le_compat_r; [|done].
  pose proof (py_min_mono t1 t2 u Ht). lra.
Qed.

Lemma bracket_share_zero (b : (Q * bound) * Q) (t : Q) :
  sane_bracket b → (t <= 0)%Q → bracket_share t b = 0%Q.
Proof.
  intros (Hl & _ & _) Ht. unfold bracket_share.
  assert (E : Qgtb t (lower_of b) = false) by (apply Qgtb_false; lra).
  by rewrite E.
Qed.

Lemma shares_nonneg (table : list ((Q * bound) * Q)) (t : Q) :
  Forall sane_bracket table →
  (0 <= foldr Qplus 0 (bracket_share t <$> table))%Q.
Proof.
  induction 1 as [|b table Hb _ IH]; [cbn; lra|].
  rewrite fmap_cons. cbn [foldr].
  pose proof (bracket_share_nonneg b t Hb). lra.
Qed.

Lemma shares_mono (table : list ((Q * bound) * Q)) (t1 t2 : Q) :
  Forall sane_bracket table → (t1 <= t2)%Q →
  (foldr Qplus 0 (bracket_share t1 <$> table)
   <= foldr Qplus 0 (bracket_share t2 <$> table))%Q.
Proof.
  intros Hs Ht. induction Hs as [|b table Hb _ IH]; [cbn; lra|].
  rewrite !fmap_cons. cbn [foldr].
  pose proof (bracket_share_mono b t1 t2 Hb Ht). lra.
Qed.

Lemma shares_zero (table : list ((Q * bound) * Q)) (t : Q) :
  Forall sane_bracket table → (t <= 0)%Q →
  (foldr Qplus 0 (bracket_share t <$> table) == 0)%Q.
Proof.
  intros Hs Ht. induction Hs as [|b table Hb _ IH]; [reflexivity|].
  rewrite fmap_cons. cbn [foldr]. rewrite (bracket_share_zero b t Hb Ht). lra.
Qed.

Lemma init_brackets_sane : Forall sane_bracket (tax_brackets TaxAssistant_init).
Proof.
  unfold TaxAssistant_init. cbn [tax_brackets].
  repeat (apply Forall_cons; split;
          [unfold sane_bracket, lower_of, upper_of, rate_of; cbn [fst snd];
           split; [by vm_compute|split; [by vm_compute|first [done | by vm_compute]]]|]).
  by apply Forall_nil.
Qed.

(** Property X11.  On a table without negative bounds or rates and without
    a bracket that ends before it starts, the liability never falls when
    the income rises. *)
Theorem tax_liability_monotone (self : TaxAssistant) (income1 income2 : Q) :
  Forall sane_bracket (tax_brackets self) →
  (income1 <= income2)%Q →
  (calculate_tax_liability self income1 <= calculate_tax_liability self income2)%Q.
Proof.
  intros Hs Hi. rewrite !calculate_tax_liability_spec.
  unfold tax_liability_spec. cbn zeta.
  apply shares_mono; [done|]. apply py_max_mono. lra.
Qed.

(** The table of the program: no less tax on [60000] than on [30000]. *)
Lemma tax_liability_monotone_witness :
  (calculate_tax_liability TaxAssistant_init 30000
   <= calculate_tax_liability TaxAssistant_init 60000)%Q.
Proof.
  apply (tax_liability_monotone TaxAssistant_init 30000 60000 init_brackets_sane).
  by vm_compute.
Defined.

(** Property X12.  On such a table the liability is never negative, and
    it is zero for every income up to the standard deduction, negative
    incomes included. *)
Theorem tax_liability_nonneg_zero_below_deduction (self : TaxAssistant) (income : Q) :
  Forall sane_bracket (tax_brackets self) →
  (0 <= calculate_tax_liability self income)%Q
  ∧ ((income <= standard_deduction self)%Q →
     (calculate_tax_liability self income == 0)%Q).
Proof.
  intros Hs. rewrite !calculate_tax_liability_spec.
  unfold tax_liability_spec. cbn zeta. split.
  - by apply shares_nonneg.
  - intros Hi. apply shares_zero; [done|]. apply py_max_nonpos. lra.
Qed.

(** The table of the program at an income of [12000], below the
    deduction of [12550]. *)
Lemma tax_liability_nonneg_zero_below_deduction_witness :
  (0 <= calculate_tax_liability TaxAssistant_init 12000)%Q
  ∧ (calculate_tax_liability TaxAssistant_init 12000 == 0)%Q.
Proof.
  destruct (tax_liability_nonneg_zero_below_deduction TaxAssistant_init 12000
              init_brackets_sane) as [H0 Hz].
  split; [exact H0|]. apply Hz. by vm_compute.
Defined.

(** ** The shape of the tax advice *)

Lemma append_if_app (c : bool) (m : text) (pre h : list text) :
  append_if c m (pre ++ h) = pre ++ append_if c m h.
Proof. unfold append_if. destruct c; [by rewrite app_assoc|done]. Qed.

Lemma append_if_sublist (c : bool) (m : text) (h k : list text) :
  h `sublist_of` k → append_if c m h `sublist_of` k ++ [m].
Proof.
  intros H. unfold append_if. destruct c.
  - by apply sublist_app.
  - by apply sublist_inserts_r.
Qed.

(** Property X14.  For a nonzero income [provide_tax_advice] returns a
    list that starts with the liability statement and the effective-rate
    statement (the liability over the income, times [100]), ends with the
    two fixed reminders, and has between them a selection, in the order of
    the source, of the five deduction hints; for a non-negative income
    and no expenses there is no hint at all. *)
Theorem provide_tax_advice_shape (self : TaxAssistant) (income : Q) (expenses : gmap string Q) :
  ¬ (income == 0)%Q →
  ∃ hints,
    provide_tax_advice self income expenses
    = Ok ([ msg_liability income (calculate_tax_liability self income);
            msg_effective_rate (calculate_tax_liability self income / income * 100)%Q ]
          ++ hints ++ [msg_receipts; msg_deadline])
    ∧ hints `sublist_of` deduction_hints
    ∧ ((0 <= income)%Q → expenses = ∅ → hints = []).
Proof.
  intros Hi. unfold provide_tax_advice. cbn zeta. rewrite py_div_ok by done.
  cbn [mbind res_bind mret res_ret].
  change ([] ++ [msg_liability income (calculate_tax_liability self income)])
    with ([msg_liability income (calculate_tax_liability self income)]).
  set (pre := [msg_liability income (calculate_tax_liability self income)] ++ _).
  change pre with (pre ++ []) at 1.  
  do 5 rewrite (append_if_app _ _ pre).
  match goal with |- context [pre ++ ?h] => exists h end. split.
  { subst pre. by rewrite <- !app_assoc. }
  split.
  { unfold deduction_hints.
    change [msg_mortgage; msg_charity; msg_medical; msg_child_care; msg_education]
      with (((((([] ++ [msg_mortgage]) ++ [msg_charity]) ++ [msg_medical]) ++ [msg_child_care]) ++ [msg_education])).
    repeat apply append_if_sublist. done. }
  intros H0 ->. unfold expenses_get. rewrite !lookup_empty. cbn [default].
  assert (E1 : Qgtb 0 0 = false) by done. rewrite E1.
  assert (E2 : Qgtb 0 ((75 # 1000) * income) = false) by (apply Qgtb_false; lra).
  rewrite E2. done.
Qed.

(** An income of [5000] and no expenses: the four fixed messages. *)
Lemma provide_tax_advice_shape_witness :
  ∃ hints,
    provide_tax_advice TaxAssistant_init 5000 ∅
    = Ok ([ msg_liability 5000 (calculate_tax_liability TaxAssistant_init 5000);
            msg_effective_rate
              (calculate_tax_liability TaxAssistant_init 5000 / 5000 * 100)%Q ]
          ++ hints ++ [msg_receipts; msg_deadline])
    ∧ hints = [].
Proof.
  destruct (provide_tax_advice_shape TaxAssistant_init 5000 ∅)
    as (hints & H1 & _ & H3); [by vm_compute|].
  exists hints. split; [exact H1|]. apply H3; [by vm_compute|done].
Defined.

(** * Further properties of the agent *)

Lemma provide_tax_advice_returns (self : TaxAssistant) (income : Q) (expenses : gmap string Q) :
  ¬ (income == 0)%Q → ∃ advice, provide_tax_advice self income expenses = Ok advice.
Proof.
  intros Hi. unfold provide_tax_advice. cbn zeta. rewrite py_div_ok by done.
  eexists. reflexivity.
Qed.

(** Property X15.  [generate_financial_report] succeeds exactly when the
    total income of the month is not zero.  At zero income it raises
    [ZeroDivisionError]; otherwise the report carries the period, the
    totals of the monthly report with [net_income] their difference, the
    breakdown by category, and as recommendations, in this order, at most
    the savings and housing remarks, the investment advice and the tax
    advice. *)
Theorem generate_financial_report_outcome (self : FinancialAIAgent) (y m : Z) :
  ∃ r, get_monthly_report (budget_manager self) y m = Ok r
    ∧ ((total_income r == 0)%Q →
       generate_financial_report self y m = Raise ZeroDivisionError)
    ∧ (¬ (total_income r == 0)%Q →
       ∃ rep pre tax_advice,
         generate_financial_report self y m = Ok rep
         ∧ provide_tax_advice (tax_assistant self) (total_income r)
                              (total <$> transactions_by_category r) = Ok tax_advice
         ∧ period rep = [Dec y; Lit "-"; Dec02 m]
         ∧ income_summary rep
           = {| summary_total_income := total_income r;
                summary_total_expenses := total_expenses r;
                net_income := (total_income r - total_expenses r)%Q;
                summary_savings_rate := savings_rate r |}
         ∧ spending_by_category rep = transactions_by_category r
         ∧ recommendations rep
           = pre ++ provide_investment_advice (investment_advisor self) r ++ tax_advice
         ∧ pre `sublist_of` [msg_save_more; msg_housing]).
Proof.
  destruct (get_monthly_report_ok (budget_manager self) y m) as (r & Hr & _).
  exists r. split; [done|].
  unfold generate_financial_report. rewrite Hr. cbn [mbind res_bind].
  unfold _generate_recommendations. cbn zeta. split.
  - intros H0. by rewrite provide_tax_advice_no_income.
  - intros Hn.
    destruct (provide_tax_advice_returns (tax_assistant self) (total_income r)
                (total <$> transactions_by_category r) Hn) as (tax_advice & Ht).
    rewrite Ht. cbn [mbind res_bind mret res_ret].
    eexists. eexists. exists tax_advice.
    split; [reflexivity|]. split; [done|].
    cbn [period income_summary spending_by_category recommendations].
    split; [done|]. split; [done|]. split; [done|].
    split; [by rewrite <- app_assoc|].
    change [msg_save_more; msg_housing] with (([] ++ [msg_save_more]) ++ [msg_housing]).
    destruct (transactions_by_category r !! "Housing").
    + apply append_if_sublist, append_if_sublist. done.
    + apply sublist_inserts_r, append_if_sublist. done.
Qed.

(** ** The size of the investment advice *)

Lemma risk_advice_empty (risk : string) :
  risk_advice risk = [] ↔ risk ∉ ["low"; "medium"; "high"].
Proof.
  split; [|apply risk_advice_other].
  unfold risk_advice. intros H Hin.
  repeat (apply elem_of_cons in Hin as [->|Hin]; [discriminate H|]).
  by apply elem_of_nil in Hin.
Qed.

Lemma market_advice_empty (stock : string) :
  market_advice stock = [] ↔ stock ∉ ["bull"; "bear"].
Proof.
  unfold market_advice. split.
  - intros H Hin.
    repeat (apply elem_of_cons in Hin as [->|Hin]; [discriminate H|]).
    by apply elem_of_nil in Hin.
  - intros Hn. repeat case_decide; try done; subst; exfalso; apply Hn; in_list.
Qed.

Lemma goal_advice_empty (goals : string) :
  goal_advice goals = [] ↔ goals ∉ ["retirement"; "short_term"].
Proof.
  unfold goal_advice. split.
  - intros H Hin.
    repeat (apply elem_of_cons in Hin as [->|Hin]; [discriminate H|]).
    by apply elem_of_nil in Hin.
  - intros Hn. repeat case_decide; try done; subst; exfalso; apply Hn; in_list.
Qed.

Lemma rate_advice_empty (rate : Q) : rate_advice rate = [] ↔ (rate <= 3)%Q.
Proof.
  unfold rate_advice. destruct (Qgtb rate 3) eqn:E.
  - apply Qgtb_true in E. split; [done|]. intros H. lra.
  - apply Qgtb_false in E. done.
Qed.

Lemma segment_lengths risk stock rate goals :
  length (risk_advice risk) ≤ 1 ∧ length (market_advice stock) ≤ 1
  ∧ length (rate_advice rate) ≤ 1 ∧ length (goal_advice goals) ≤ 1.
Proof.
  unfold risk_advice, market_advice, rate_advice, goal_advice.
  destruct (Qgtb rate 3); repeat split; repeat case_decide; cbn [length]; lia.
Qed.

(** Property X16.  The investment advice has at most four messages, and
    it can be empty: exactly when a profile is set, the savings rate is at
    least [10], the risk tolerance is none of ['low'], ['medium'] and
    ['high'], the market is neither ['bull'] nor ['bear'], the interest
    rate is at most [3] and the goals are neither ['retirement'] nor
    ['short_term']. *)
Theorem investment_advice_size (self : InvestmentAdvisor) (report : MonthlyReport) :
  length (provide_investment_advice self report) ≤ 4
  ∧ (provide_investment_advice self report = [] ↔
     ∃ risk goals,
       risk_tolerance self = Some risk ∧ investment_goals self = Some goals
       ∧ (10 <= savings_rate report)%Q
       ∧ (risk ∉ ["low"; "medium"; "high"])
       ∧ (stock_market (market_conditions self) ∉ ["bull"; "bear"])
       ∧ (interest_rates (market_conditions self) <= 3)%Q
       ∧ (goals ∉ ["retirement"; "short_term"])).
Proof.
  destruct (risk_tolerance self) as [risk|] eqn:Hr;
    [destruct (investment_goals self) as [goals|] eqn:Hg|].
  - destruct (Qlt_le_dec (savings_rate report) 10) as [Hlt|Hge].
    + rewrite (provide_investment_advice_caution self report risk goals Hr Hg Hlt).
      split; [cbn; lia|]. split; [done|].
      intros (? & ? & _ & _ & Hs & _). lra.
    + rewrite (provide_investment_advice_rules self report risk goals Hr Hg Hge).
      split.
      * rewrite !length_app.
        destruct (segment_lengths risk (stock_market (market_conditions self))
                    (interest_rates (market_conditions self)) goals) as (?&?&?&?).
        lia.
      * rewrite !app_nil, risk_advice_empty, market_advice_empty,
          rate_advice_empty, goal_advice_empty.
        split.
        -- intros (?&?&?&?). by exists risk, goals.
        -- intros (risk' & goals' & [= <-] & [= <-] & _ & ? & ? & ? & ?). done.
  - rewrite provide_investment_advice_unset by (by right).
    split; [cbn; lia|]. split; [done|]. by intros (? & ? & _ & ? & _).
  - rewrite provide_investment_advice_unset by (by left).
    split; [cbn; lia|]. split; [done|]. by intros (? & ? & ? & _).
Qed.
